(** * CycloneDX SBOM generator of apko: a shallow embedding

    Source: [pkg/sbom/generator/cyclonedx/cyclonedx.go].

    Go strings are byte sequences; they are embedded as [string] (a list of
    8-bit [ascii] characters).  Go slices are lists, Go structs are records,
    [map[string]string] is a [gmap string string], and a function returning
    [error] returns a [result]. *)

From Stdlib Require Import ZArith NArith Ascii String.
From stdpp Require Import gmap strings list sorting.

Local Open Scope Z_scope.

Set Warnings "-register-all".

(** ** Errors *)

(** Go's [error] values, with [fmt.Errorf("...: %w", err)] as [Wrap]. *)
Inductive error : Type :=
  | ErrBadName (msg : string)          (* name.ErrBadName of go-containerregistry *)
  | ErrIO (msg : string)               (* an error of the os package *)
  | ErrEncode (msg : string)           (* an error of encoding/json *)
  | Wrap (context : string) (cause : error).

Inductive result (A : Type) : Type :=
  | Ok (a : A)
  | Err (e : error).
Arguments Ok {A} a.
Arguments Err {A} e.

(** The innermost error of a chain of [%w] wrappings. *)
Fixpoint root_cause (e : error) : error :=
  match e with
  | Wrap _ e' => root_cause e'
  | _ => e
  end.

(** ** The Go [strings] package, as far as the generator uses it *)
Module GoStrings.

(** [strings.ContainsRune(s, r)] for a rune below 0x80: a byte search. *)
Fixpoint ContainsRune (s : string) (r : ascii) : bool :=
  match s with
  | EmptyString => false
  | String c s' => if Ascii.eqb c r then true else ContainsRune s' r
  end.

(** [strings.IndexAny(s, chars)] for an ASCII set [chars]: the index of the
    first byte of [s] that is in [chars], or -1. *)
Fixpoint IndexAny (s chars : string) : Z :=
  match s with
  | EmptyString => -1
  | String c s' =>
      if ContainsRune chars c then 0
      else let i := IndexAny s' chars in
           if i <? 0 then -1 else i + 1
  end.

(** The slice expression [s[:i]] for [0 <= i <= len(s)]. *)
Definition slice_to (s : string) (i : Z) : string :=
  String.substring 0 (Z.to_nat i) s.

(** [strings.Split(s, sep)] for a one-byte separator. *)
Fixpoint Split (s : string) (sep : ascii) : list string :=
  match s with
  | EmptyString => [EmptyString]
  | String c s' =>
      if Ascii.eqb c sep then EmptyString :: Split s' sep
      else match Split s' sep with
           | [] => [String c EmptyString]
           | w :: ws => String c w :: ws
           end
  end.

(** [strings.Join(elems, sep)]. *)
Fixpoint Join (elems : list string) (sep : string) : string :=
  match elems with
  | [] => EmptyString
  | [e] => e
  | e :: es => e +:+ sep +:+ Join es sep
  end.

End GoStrings.

(** ** Percent-encoding of [net/url] *)
Module url.

Inductive encoding : Set := encodePathSegment | encodeQueryComponent.

Definition between (lo hi c : ascii) : bool :=
  (N_of_ascii lo <=? N_of_ascii c)%N && (N_of_ascii c <=? N_of_ascii hi)%N.

Definition is_alnum (c : ascii) : bool :=
  between "a" "z" c || between "A" "Z" c || between "0" "9" c.

Definition is_mark (c : ascii) : bool :=
  GoStrings.ContainsRune "-_.~" c.

Definition is_reserved (c : ascii) : bool :=
  GoStrings.ContainsRune "$&+,/:;=?@" c.

(** [shouldEscape(c, mode)] for the two modes that [PathEscape] and
    [QueryEscape] use. *)
Definition shouldEscape (c : ascii) (mode : encoding) : bool :=
  if is_alnum c then false
  else if is_mark c then false
  else if is_reserved c then
    match mode with
    | encodePathSegment => GoStrings.ContainsRune "/;,?" c
    | encodeQueryComponent => true
    end
  else true.

(** [upperhex[n]] for [n < 16]. *)
Definition upperhex (n : N) : ascii :=
  match String.get (N.to_nat n) "0123456789ABCDEF" with
  | Some d => d
  | None => "0"%char
  end.

Definition escape_byte (c : ascii) (mode : encoding) : string :=
  match mode with
  | encodeQueryComponent =>
      if Ascii.eqb c " " then "+"
      else if shouldEscape c mode then
        String "%" (String (upperhex (N.shiftr (N_of_ascii c) 4))
                   (String (upperhex (N.land (N_of_ascii c) 15)) ""))
      else String c ""
  | encodePathSegment =>
      if shouldEscape c mode then
        String "%" (String (upperhex (N.shiftr (N_of_ascii c) 4))
                   (String (upperhex (N.land (N_of_ascii c) 15)) ""))
      else String c ""
  end.

Fixpoint escape (s : string) (mode : encoding) : string :=
  match s with
  | EmptyString => EmptyString
  | String c s' => escape_byte c mode +:+ escape s' mode
  end.

Definition QueryEscape (s : string) : string := escape s encodeQueryComponent.
Definition PathEscape (s : string) : string := escape s encodePathSegment.

(** [unhex(c)]: the value of a hexadecimal digit. *)
Definition unhex (c : ascii) : N :=
  if between "0" "9" c then N_of_ascii c - N_of_ascii "0"
  else if between "a" "f" c then N_of_ascii c - N_of_ascii "a" + 10
  else if between "A" "F" c then N_of_ascii c - N_of_ascii "A" + 10
  else 0.

(** What [unescape(s, mode)] reads at the head of an escaped text: the
    decoded byte and the text that is left. *)
Definition unescape_head (s : string) (mode : encoding) : option (ascii * string) :=
  match s with
  | EmptyString => None
  | String c rest =>
      if Ascii.eqb c "%" then
        match rest with
        | String a (String b rest') =>
            Some (ascii_of_N (N.lor (N.shiftl (unhex a) 4) (unhex b)), rest')
        | _ => None
        end
      else if Ascii.eqb c "+" then
        match mode with
        | encodeQueryComponent => Some (" "%char, rest)
        | encodePathSegment => Some (c, rest)
        end
      else Some (c, rest)
  end.

End url.

(** ** Types of go-containerregistry's [v1] package *)
Module v1.

(** [v1.Hash]: an algorithm name and a hex digest. *)
Record Hash : Type := mkHash { Algorithm : string; Hex : string }.

(** [h.String()] is [Algorithm + ":" + Hex]. *)
Definition String (h : Hash) : string := Algorithm h +:+ ":" +:+ Hex h.

(** [h.DeepCopy()] copies both fields. *)
Definition DeepCopy (h : Hash) : Hash :=
  {| Algorithm := Algorithm h; Hex := Hex h |}.

(** The fields of [v1.Platform] that the generator reads. *)
Record Platform : Type := mkPlatform { Architecture : string; OS : string }.

End v1.

(** ** Iteration order of Go maps

    [for k, v := range m] visits the entries of [m] in an unspecified order,
    which may differ from run to run.  A [MapOrder] is one choice of that
    order: it rearranges the entries and nothing else. *)
Class MapOrder : Type := {
  range_order : list (string * string) → list (string * string);
  range_order_perm : ∀ l, range_order l ≡ₚ l
}.

(** ** The package-URL library (Identifier Builder) *)
Module purl.

Definition TypeOCI : string := "oci".

Record Qualifier : Type := mkQualifier { Key : string; Value : string }.

Record PackageURL : Type := mkPackageURL {
  Type_ : string;
  Namespace : string;
  Name : string;
  Version : string;
  Qualifiers : list Qualifier;
  Subpath : string
}.

Definition NewPackageURL (purlType namespace name version : string)
    (qualifiers : list Qualifier) (subpath : string) : PackageURL :=
  {| Type_ := purlType; Namespace := namespace; Name := name;
     Version := version; Qualifiers := qualifiers; Subpath := subpath |}.

(** The order [sort.Slice] sorts qualifiers by: the byte-wise order of
    their keys. *)
Definition key_le (q1 q2 : Qualifier) : Prop := String.le (Key q1) (Key q2).

Global Instance key_le_dec : RelDecision key_le.
Proof. intros q1 q2. unfold key_le. apply _. Defined.

(** Modelled from the spec: the Identifier Builder's [QualifiersFromMap],
    a function of the imported package-URL library, which is outside this
    repository.  It collects the entries of the map by ranging over it and
    then sorts them by key, so that the keys come out in a stable, sorted
    order. *)
Definition QualifiersFromMap `{MO : MapOrder} (mm : gmap string string)
    : list Qualifier :=
  let q := foldl (λ q kv, q ++ [ {| Key := kv.1; Value := kv.2 |} ]) []
                 (range_order (map_to_list mm)) in
  merge_sort key_le q.

(** [q.String()]: the key, an equals sign and the escaped value. *)
Definition Qualifier_String (q : Qualifier) : string :=
  Key q +:+ "=" +:+ url.PathEscape (Value q).

(** Modelled from the spec: the Identifier Builder's rendering of an
    identifier, [p.String()] of the imported package-URL library, which is
    outside this repository.  The layout is the package-URL grammar
    [pkg:type/namespace/name@version?qualifiers#subpath] with the name, the
    version and the qualifier values percent-encoded and nothing rejected. *)
Definition String (p : PackageURL) : string :=
  let s := "pkg:" +:+ Type_ p +:+ "/" in
  let s :=
    if decide (Namespace p = "") then s
    else s +:+ GoStrings.Join
                 (url.QueryEscape <$> GoStrings.Split (Namespace p) "/") "/"
           +:+ "/" in
  let s := s +:+ url.QueryEscape (Name p) in
  let s :=
    if decide (Version p = "") then s
    else s +:+ "@" +:+ url.PathEscape (Version p) in
  let s :=
    match Qualifiers p with
    | [] => s
    | _ => s +:+ "?" +:+ GoStrings.Join (Qualifier_String <$> Qualifiers p) "&"
    end in
  if decide (Subpath p = "") then s else s +:+ "#" +:+ Subpath p.

(** The pieces of [String p] for an identifier without subpath: the text up
    to the name, the version part and the qualifier part. *)
Definition String_prefix (purlType namespace : string) : string :=
  if decide (namespace = "") then "pkg:" +:+ purlType +:+ "/"
  else ("pkg:" +:+ purlType +:+ "/")
         +:+ GoStrings.Join
               (url.QueryEscape <$> GoStrings.Split namespace "/") "/"
         +:+ "/".

Definition String_version (version : string) : string :=
  if decide (version = "") then "" else "@" +:+ url.PathEscape version.

Definition String_qualifiers (qualifiers : list Qualifier) : string :=
  match qualifiers with
  | [] => ""
  | _ => "?" +:+ GoStrings.Join (Qualifier_String <$> qualifiers) "&"
  end.

End purl.

(** ** Declarations the generator imports

    The generator is parametric in the architecture type of
    [pkg/build/types] and in the reference parser of go-containerregistry's
    [name] package. *)
Class ArchDecl : Type := {
  Architecture : Type;
  Architecture_String : Architecture → string;        (* a.String() *)
  ToAPK : Architecture → string;                      (* a.ToAPK() *)
  ToOCIPlatform : Architecture → v1.Platform          (* a.ToOCIPlatform() *)
}.

Class NameDecl : Type := {
  Reference : Type;
  ParseReference : string → result Reference;         (* name.ParseReference *)
  RepositoryStr : Reference → string                  (* ref.Context().RepositoryStr() *)
}.

(** ** The input: [options.Options] *)

(** A package of the resolved package list, with the fields that are read. *)
Module Package.
Record t : Type := mk {
  Name : string;
  Version : string;
  Description : string;
  License : string;
  Dependencies : list string
}.
End Package.

(** [opts.OS]. *)
Module OSInfo.
Record t : Type := mk { ID : string; Name : string; Version : string }.
End OSInfo.

(** An entry of [opts.ImageInfo.Images]. *)
Module ArchImageInfo.
Record t `{ArchDecl} : Type := mk { Digest : v1.Hash; Arch : Architecture }.
End ArchImageInfo.

(** [opts.ImageInfo]. *)
Module ImageInfo.
Record t `{ArchDecl} : Type := mk {
  Arch : Architecture;
  Repository : string;
  Name : string;
  LayerDigest : string;
  ImageDigest : string;
  IndexDigest : v1.Hash;
  IndexMediaType : string;
  Images : list ArchImageInfo.t
}.
End ImageInfo.

Module Options.
Record t `{ArchDecl} : Type := mk {
  OS : OSInfo.t;
  ImageInfo : ImageInfo.t;
  Packages : list Package.t
}.
End Options.

(** ** The output: the CycloneDX document *)

Record License : Type := mkLicense { Expression : string }.

Record ExternalReference : Type := mkExternalReference {
  URL : string;
  RefType : string                                    (* field [Type] *)
}.

Record Dependency : Type := mkDependency {
  Ref : string;
  DependsOn : list string
}.

Record Hash : Type := mkHash {
  Algorithm : string;                                 (* a [HashAlgorithm] *)
  Value : string
}.

(** [Component]; the field [Type] of the source is [Type_] here. *)
Inductive Component : Type := mkComponent {
  BOMRef : string;
  Type_ : string;
  Name : string;
  Version : string;
  Description : string;
  PUrl : string;
  Hashes : list Hash;
  ExternalReferences : list ExternalReference;
  Licenses : list License;
  Components : list Component
}.

(** [Document]; its fields [Version] and [Components] are [DocVersion] and
    [DocComponents] here. *)
Record Document : Type := mkDocument {
  BOMFormat : string;
  SpecVersion : string;
  DocVersion : Z;
  DocComponents : list Component;
  Dependencies : list Dependency
}.

(** ** The operating system and the JSON encoder

    [renderDoc] creates a file and has [encoding/json] write the document to
    it.  The file system is a state [World] that these calls transform; what
    they do to it is a parameter of the development. *)
Class IODecl : Type := {
  World : Type;
  File : Type;
  os_Create : string → World → result File * World;             (* os.Create(path) *)
  File_Close : File → World → World;                            (* out.Close() *)
  (* json.NewEncoder(out), enc.SetIndent(prefix, indent), enc.Encode(doc) *)
  Encoder_Encode : File → string → string → Document → World → result unit * World
}.

(** An action on the file system that may fail. *)
Definition io `{IODecl} (A : Type) : Type := World → result A * World.

(** ** The generator *)
Section Generator.
Context `{AD : ArchDecl, ND : NameDecl, MO : MapOrder, IO : IODecl}.

Definition Key : string := "cyclonedx".

Definition Ext : string := "cdx".

(** [renderDoc] marshals a document to json and writes it to disk. *)
Definition renderDoc (doc : Document) (path : string) : io unit :=
  λ w,
    match os_Create path w with
    | (Err err, w) =>
        (Err (Wrap ("opening SBOM path " +:+ path +:+ " for writing") err), w)
    | (Ok out, w) =>
        match Encoder_Encode out "" "  " doc w with
        | (Err err, w) => (Err (Wrap "encoding spdx sbom" err), File_Close out w)
        | (Ok _, w) => (Ok (), File_Close out w)
        end
    end.

(** The map [mm] of [Generate]. *)
Definition Generate_mm (opts : Options.t) : gmap string string :=
  {[ "arch" := ToAPK (ImageInfo.Arch (Options.ImageInfo opts)) ]}.

(** The identifier of a package of [Generate]: the value of [BOMRef], [PUrl]
    and [Ref]. *)
Definition pkgPurl (opts : Options.t) (name version : string) : string :=
  purl.String
    (purl.NewPackageURL "apk" (OSInfo.ID (Options.OS opts)) name version
       (purl.QualifiersFromMap (Generate_mm opts)) "").

(** One turn of the loop over [pkg.Dependencies]. *)
Definition depRefs_step (opts : Options.t) (depRefs : list string)
    (dep : string) : list string :=
  if GoStrings.ContainsRune dep ":" then depRefs
  else
    let i := GoStrings.IndexAny dep " ~<>=/!" in
    let dep := if i >? -1 then GoStrings.slice_to dep i else dep in
    if decide (dep = "") then depRefs
    else depRefs ++ [pkgPurl opts dep ""].

(** The component [c] that a turn of the loop over [opts.Packages] adds. *)
Definition Generate_pkgComponent (opts : Options.t) (pkg : Package.t)
    : Component :=
  {| BOMRef := pkgPurl opts (Package.Name pkg) (Package.Version pkg);
     Type_ := "operating-system";
     Name := Package.Name pkg;
     Version := Package.Version pkg;
     Description := Package.Description pkg;
     PUrl := pkgPurl opts (Package.Name pkg) (Package.Version pkg);
     Hashes := [];
     ExternalReferences := [];
     Licenses := [ {| Expression := Package.License pkg |} ];
     Components := [] |}.

(** The dependency [d] that a turn of the loop over [opts.Packages] adds;
    its [DependsOn] is the list [depRefs] that the inner loop builds. *)
Definition Generate_pkgDependency (opts : Options.t) (pkg : Package.t)
    : Dependency :=
  let depRefs := foldl (depRefs_step opts) [] (Package.Dependencies pkg) in
  {| Ref := pkgPurl opts (Package.Name pkg) (Package.Version pkg);
     DependsOn := depRefs |}.

(** One turn of the loop over [opts.Packages]. *)
Definition Generate_step (opts : Options.t)
    (acc : list Component * list Dependency) (pkg : Package.t)
    : list Component * list Dependency :=
  let '(pkgComponents, pkgDependencies) := acc in
  (pkgComponents ++ [Generate_pkgComponent opts pkg],
   pkgDependencies ++ [Generate_pkgDependency opts pkg]).

(** The map [mmMain] of [Generate]. *)
Definition Generate_mmMain (opts : Options.t) : gmap string string :=
  let ii := Options.ImageInfo opts in
  let mmMain : gmap string string := ∅ in
  let mmMain :=
    if decide (ImageInfo.Repository ii ≠ "")
    then <["repository_url" := ImageInfo.Repository ii]> mmMain else mmMain in
  if decide (Architecture_String (ImageInfo.Arch ii) ≠ "")
  then <["arch" := v1.Architecture (ToOCIPlatform (ImageInfo.Arch ii))]> mmMain
  else mmMain.

(** An OCI identifier with the qualifiers [mm]. *)
Definition ociPurl (name version : string) (mm : gmap string string) : string :=
  purl.String
    (purl.NewPackageURL purl.TypeOCI "" name version (purl.QualifiersFromMap mm) "").

Definition Generate_layerComponent (opts : Options.t)
    (pkgComponents : list Component) : Component :=
  let ii := Options.ImageInfo opts in
  {| BOMRef := ociPurl (ImageInfo.Name ii) (ImageInfo.LayerDigest ii)
                 (Generate_mmMain opts);
     Type_ := "operating-system";
     Name := OSInfo.Name (Options.OS opts);
     Version := OSInfo.Version (Options.OS opts);
     Description := "apko OS layer";
     PUrl := ociPurl (ImageInfo.Name ii) (ImageInfo.LayerDigest ii)
               (Generate_mmMain opts);
     Hashes := [];
     ExternalReferences := [];
     Licenses := [];
     Components := pkgComponents |}.

Definition Generate_imageComponent (opts : Options.t)
    (layerComponent : Component) : Component :=
  let ii := Options.ImageInfo opts in
  {| BOMRef := ociPurl (ImageInfo.Name ii) (ImageInfo.ImageDigest ii)
                 (Generate_mmMain opts);
     Type_ := "container";
     Name := "";
     Version := "";
     Description := "apko container image";
     PUrl := ociPurl (ImageInfo.Name ii) (ImageInfo.ImageDigest ii)
               (Generate_mmMain opts);
     Hashes := [];
     ExternalReferences := [];
     Licenses := [];
     Components := [layerComponent] |}.

(** The zero value of [Component], what [var imageComponent Component]
    declares. *)
Definition zero_Component : Component :=
  {| BOMRef := ""; Type_ := ""; Name := ""; Version := ""; Description := "";
     PUrl := ""; Hashes := []; ExternalReferences := []; Licenses := [];
     Components := [] |}.

(** The document that [Generate] hands to [renderDoc]. *)
Definition Generate_bom (opts : Options.t) : Document :=
  let '(pkgComponents, pkgDependencies) :=
    foldl (Generate_step opts) ([], []) (Options.Packages opts) in
  let imageComponent := zero_Component in
  let layerComponent := Generate_layerComponent opts pkgComponents in
  let imageComponent :=
    if decide (ImageInfo.ImageDigest (Options.ImageInfo opts) ≠ "")
    then Generate_imageComponent opts layerComponent else imageComponent in
  {| BOMFormat := "CycloneDX";
     SpecVersion := "1.4";
     DocVersion := 1;
     DocComponents :=
       if decide (ImageInfo.ImageDigest (Options.ImageInfo opts) ≠ "")
       then [imageComponent] else [layerComponent];
     Dependencies := pkgDependencies |}.

(** [Generate] writes a cyclonedx sbom in [path]. *)
Definition Generate (opts : Options.t) (path : string) : io unit :=
  λ w,
    match renderDoc (Generate_bom opts) path w with
    | (Err err, w) => (Err (Wrap "rendering sbom to disk" err), w)
    | (Ok _, w) => (Ok (), w)
    end.

(** The map [mmMain] of [archImageComponent]. *)
Definition archImageComponent_mmMain (opts : Options.t) : gmap string string :=
  let ii := Options.ImageInfo opts in
  let mmMain : gmap string string := ∅ in
  let mmMain :=
    if decide (ImageInfo.Repository ii ≠ "")
    then <["repository_url" := ImageInfo.Repository ii]> mmMain else mmMain in
  let mmMain :=
    if decide (Architecture_String (ImageInfo.Arch ii) ≠ "")
    then <["arch" := v1.Architecture (ToOCIPlatform (ImageInfo.Arch ii))]> mmMain
    else mmMain in
  let mmMain :=
    if decide (v1.OS (ToOCIPlatform (ImageInfo.Arch ii)) ≠ "")
    then <["os" := v1.OS (ToOCIPlatform (ImageInfo.Arch ii))]> mmMain
    else mmMain in
  if decide (ImageInfo.IndexMediaType ii ≠ "")
  then <["mediaType" := ImageInfo.IndexMediaType ii]> mmMain
  else mmMain.

(** The variable [imageRepoName] of [archImageComponent]. *)
Definition archImageComponent_imageRepoName (opts : Options.t) : string :=
  let repoName := "" in
  let repoName :=
    if decide (ImageInfo.Name (Options.ImageInfo opts) ≠ "") then
      match ParseReference (ImageInfo.Name (Options.ImageInfo opts)) with
      | Ok ref => RepositoryStr ref
      | Err _ => repoName
      end
    else repoName in
  let imageRepoName := "image" in
  if decide (repoName ≠ "") then repoName else imageRepoName.

(** [archImageComponent] takes an image and returns a component
    representing it. *)
Definition archImageComponent (opts : Options.t) (info : ArchImageInfo.t)
    : Component :=
  let imageRepoName := archImageComponent_imageRepoName opts in
  let mmMain := archImageComponent_mmMain opts in
  let purlString :=
    ociPurl imageRepoName
      (v1.String (v1.DeepCopy (ArchImageInfo.Digest info))) mmMain in
  {| BOMRef := purlString;
     Type_ := "container";
     Name := v1.String (v1.DeepCopy (ArchImageInfo.Digest info));
     Version := v1.String (v1.DeepCopy (ArchImageInfo.Digest info));
     Description :=
       "apko image for "
         +:+ v1.OS (ToOCIPlatform (ArchImageInfo.Arch info))
         +:+ "/" +:+ Architecture_String (ArchImageInfo.Arch info);
     PUrl := purlString;
     Hashes :=
       [ {| Algorithm := "SHA-256";
            Value := v1.Hex (v1.DeepCopy (ArchImageInfo.Digest info)) |} ];
     ExternalReferences := [];
     Licenses := [];
     Components := [] |}.

(** The map [mmMain] of [GenerateIndex]. *)
Definition GenerateIndex_mmMain (opts : Options.t) : gmap string string :=
  let ii := Options.ImageInfo opts in
  let mmMain : gmap string string := ∅ in
  let mmMain :=
    if decide (ImageInfo.Repository ii ≠ "")
    then <["repository_url" := ImageInfo.Repository ii]> mmMain else mmMain in
  let mmMain :=
    if decide (Architecture_String (ImageInfo.Arch ii) ≠ "")
    then <["arch" := v1.Architecture (ToOCIPlatform (ImageInfo.Arch ii))]> mmMain
    else mmMain in
  if decide (ImageInfo.IndexMediaType ii ≠ "")
  then <["mediaType" := ImageInfo.IndexMediaType ii]> mmMain
  else mmMain.

(** [indexComponent.Components = append(indexComponent.Components, c)]. *)
Definition append_Components (parent c : Component) : Component :=
  {| BOMRef := BOMRef parent;
     Type_ := Type_ parent;
     Name := Name parent;
     Version := Version parent;
     Description := Description parent;
     PUrl := PUrl parent;
     Hashes := Hashes parent;
     ExternalReferences := ExternalReferences parent;
     Licenses := Licenses parent;
     Components := Components parent ++ [c] |}.

(** The variables [repoName] and [indexComponentName] of [GenerateIndex]
    after its first statements, or the error they return with. *)
Definition GenerateIndex_names (opts : Options.t) : result (string * string) :=
  let ii := Options.ImageInfo opts in
  let indexComponentName := v1.String (v1.DeepCopy (ImageInfo.IndexDigest ii)) in
  let repoName := "index" in
  if decide (ImageInfo.Name ii ≠ "") then
    match ParseReference (ImageInfo.Name ii) with
    | Err err => Err (Wrap "parsing image reference" err)
    | Ok ref =>
        let repoName := RepositoryStr ref in
        Ok (repoName, repoName +:+ "@" +:+ indexComponentName)
    end
  else Ok (repoName, indexComponentName).

(** The index component of [GenerateIndex] once the loop over
    [opts.ImageInfo.Images] has run. *)
Definition GenerateIndex_indexComponent (opts : Options.t)
    (repoName indexComponentName : string) : Component :=
  let ii := Options.ImageInfo opts in
  let mmMain := GenerateIndex_mmMain opts in
  let purlString := ociPurl repoName (ImageInfo.ImageDigest ii) mmMain in
  let indexComponent :=
    {| BOMRef := purlString;
       Type_ := "container";
       Name := indexComponentName;
       Version := v1.Hex (v1.DeepCopy (ImageInfo.IndexDigest ii));
       Description := "Multi-arch image index";
       PUrl := purlString;
       Hashes :=
         [ {| Algorithm := "SHA-256";
              Value := v1.Hex (v1.DeepCopy (ImageInfo.IndexDigest ii)) |} ];
       ExternalReferences := [];
       Licenses := [];
       Components := [] |} in
  foldl (λ indexComponent info,
           append_Components indexComponent (archImageComponent opts info))
        indexComponent (ImageInfo.Images ii).

(** The document that [GenerateIndex] hands to [renderDoc], or the error it
    returns with before that. *)
Definition GenerateIndex_bom (opts : Options.t) : result Document :=
  match GenerateIndex_names opts with
  | Err err => Err err
  | Ok (repoName, indexComponentName) =>
      Ok {| BOMFormat := "CycloneDX";
            SpecVersion := "1.4";
            DocVersion := 1;
            DocComponents :=
              [GenerateIndex_indexComponent opts repoName indexComponentName];
            Dependencies := [] |}
  end.

Definition GenerateIndex (opts : Options.t) (path : string) : io unit :=
  λ w,
    match GenerateIndex_bom opts with
    | Err err => (Err err, w)
    | Ok bom =>
        match renderDoc bom path w with
        | (Err err, w) => (Err (Wrap "rendering SBOM" err), w)
        | (Ok _, w) => (Ok (), w)
        end
    end.

(** *** Vocabulary of the properties *)

(** Every component of a tree, the root first, children left to right. *)
Fixpoint tree_components (c : Component) : list Component :=
  match c with
  | mkComponent _ _ _ _ _ _ _ _ _ children =>
      c :: (fix forest (l : list Component) : list Component :=
              match l with
              | [] => []
              | c' :: l' => tree_components c' ++ forest l'
              end) children
  end.

(** Every component of a document, one entry per tree position. *)
Definition document_components (doc : Document) : list Component :=
  concat (tree_components <$> DocComponents doc).

(** The text of a raw dependency up to the first character of the set
    [{space, ~, <, >, =, /, !}], or all of it when it has none. *)
Fixpoint bare_name (dep : string) : string :=
  match dep with
  | EmptyString => EmptyString
  | String c dep' =>
      if bool_decide (c ∈ [" "; "~"; "<"; ">"; "="; "/"; "!"]%char)
      then EmptyString else String c (bare_name dep')
  end.

(** The dependency resolver as the specification words it: the edges that
    one raw dependency string yields. *)
Definition resolve_dependency (opts : Options.t) (dep : string) : list string :=
  if bool_decide (":"%char ∈ list_ascii_of_string dep) then []
  else if decide (bare_name dep = "") then []
  else [ purl.String
           (purl.NewPackageURL "apk" (OSInfo.ID (Options.OS opts))
              (bare_name dep) ""
              (purl.QualifiersFromMap
                 {[ "arch" := ToAPK (ImageInfo.Arch (Options.ImageInfo opts)) ]})
              "") ].

(** The packages of the input have pairwise distinct (name, version) pairs. *)
Definition distinct_packages (opts : Options.t) : Prop :=
  NoDup ((λ pkg, (Package.Name pkg, Package.Version pkg)) <$> Options.Packages opts).

(** No two components at different positions of the document share their
    identifier. *)
Definition unique_identifiers (doc : Document) : Prop :=
  NoDup (BOMRef <$> document_components doc).

End Generator.

(** ** The JSON value of a document

    [renderDoc] has [encoding/json] encode the document.  The value it
    encodes is read off the struct tags: one object per struct, its members
    named by the tags, in the order of the fields; a field tagged
    [omitempty] is left out when its slice is empty.  The slices without
    [omitempty] ([dependsOn]) are never nil in a document of the generator,
    so they are arrays. *)
Inductive json : Type :=
  | JString (s : string)
  | JNumber (n : Z)
  | JArray (items : list json)
  | JObject (members : list (string * json)).

(** A slice field tagged [json:"key,omitempty"]. *)
Definition omitempty (key : string) (items : list json) : list (string * json) :=
  match items with
  | [] => []
  | _ => [(key, JArray items)]
  end.

Definition marshal_License (l : License) : json :=
  JObject [("expression", JString (Expression l))].

Definition marshal_ExternalReference (r : ExternalReference) : json :=
  JObject [("url", JString (URL r)); ("type", JString (RefType r))].

Definition marshal_Dependency (d : Dependency) : json :=
  JObject [("ref", JString (Ref d));
           ("dependsOn", JArray (JString <$> DependsOn d))].

Definition marshal_Hash (h : Hash) : json :=
  JObject [("alg", JString (Algorithm h)); ("content", JString (Value h))].

Fixpoint marshal_Component (c : Component) : json :=
  match c with
  | mkComponent bomRef type name version description pUrl hashes
      externalReferences licenses components =>
      JObject
        ([("bom-ref", JString bomRef);
          ("type", JString type);
          ("name", JString name);
          ("version", JString version);
          ("description", JString description);
          ("purl", JString pUrl)]
         ++ omitempty "hashes" (marshal_Hash <$> hashes)
         ++ omitempty "externalReferences"
              (marshal_ExternalReference <$> externalReferences)
         ++ omitempty "licenses" (marshal_License <$> licenses)
         ++ omitempty "components"
              ((fix children (l : list Component) : list json :=
                  match l with
                  | [] => []
                  | c' :: l' => marshal_Component c' :: children l'
                  end) components))
  end.

Definition marshal_Document (doc : Document) : json :=
  JObject
    ([("bomFormat", JString (BOMFormat doc));
      ("specVersion", JString (SpecVersion doc));
      ("version", JNumber (DocVersion doc))]
     ++ omitempty "components" (marshal_Component <$> DocComponents doc)
     ++ omitempty "dependencies" (marshal_Dependency <$> Dependencies doc)).

(** The names of the members of an object, in order. *)
Definition json_keys (j : json) : list string :=
  match j with
  | JObject members => members.*1
  | _ => []
  end.

(** ** Instances and inputs for concrete evaluations *)
Module Sample.

(** Architectures as their names, on Linux. *)
Definition arch : ArchDecl :=
  {| Architecture := string;
     Architecture_String := λ a, a;
     ToAPK := λ a, a;
     ToOCIPlatform := λ a, {| v1.Architecture := a; v1.OS := "linux" |} |}.

(** A reference parser for the examples: it rejects a reference that
    contains a space and otherwise takes the text before the first [:] or
    [@] as the repository. *)
Definition refs : NameDecl :=
  {| Reference := string;
     ParseReference := λ s,
       if GoStrings.ContainsRune s " "
       then Err (ErrBadName ("could not parse reference: " +:+ s))
       else
         let i := GoStrings.IndexAny s ":@" in
         Ok (if i >? -1 then GoStrings.slice_to s i else s);
     RepositoryStr := λ r, r |}.

(** Two iteration orders: the stored order and its reverse. *)
Definition stored_order : MapOrder :=
  {| range_order := λ l, l; range_order_perm := λ l, reflexivity l |}.

Definition reverse_order : MapOrder :=
  {| range_order := @reverse (string * string);
     range_order_perm := @reverse_Permutation (string * string) |}.

(** A file system in memory: the paths written and the documents
    encoded to them; creating a file with an empty path fails. *)
Definition files : IODecl :=
  {| World := list (string * option Document);
     File := string;
     os_Create := λ path w,
       if decide (path = "") then (Err (ErrIO "open : no such file or directory"), w)
       else (Ok path, (path, None) :: w);
     File_Close := λ _ w, w;
     Encoder_Encode := λ out _ _ doc w, (Ok (), (out, Some doc) :: w) |}.

#[local] Existing Instances arch refs stored_order files.

Definition no_files : World := [].

Definition musl : Package.t :=
  {| Package.Name := "musl"; Package.Version := "1.2.3-r0";
     Package.Description := "the musl c library";
     Package.License := "MIT"; Package.Dependencies := [] |}.

Definition busybox : Package.t :=
  {| Package.Name := "busybox"; Package.Version := "1.35.0-r17";
     Package.Description := "Size optimized toolbox";
     Package.License := "GPL-2.0-only";
     Package.Dependencies :=
       ["so:libc.musl-x86_64.so.1"; "musl>=1.2.3"; "/bin/sh"; "";
        "scanelf"; "musl"] |}.

Definition alpine : OSInfo.t :=
  {| OSInfo.ID := "alpine"; OSInfo.Name := "Alpine Linux";
     OSInfo.Version := "3.16" |}.

Definition digest_a : v1.Hash := {| v1.Algorithm := "sha256"; v1.Hex := "aaaa" |}.
Definition digest_b : v1.Hash := {| v1.Algorithm := "sha256"; v1.Hex := "bbbb" |}.
Definition digest_c : v1.Hash := {| v1.Algorithm := "sha256"; v1.Hex := "cccc" |}.

Definition image_a : ArchImageInfo.t :=
  {| ArchImageInfo.Digest := digest_a; ArchImageInfo.Arch := "amd64" |}.

Definition image_b : ArchImageInfo.t :=
  {| ArchImageInfo.Digest := digest_b; ArchImageInfo.Arch := "arm64" |}.

Definition image_info (name imageDigest : string) : ImageInfo.t :=
  {| ImageInfo.Arch := "amd64";
     ImageInfo.Repository := "registry.example/app";
     ImageInfo.Name := name;
     ImageInfo.LayerDigest := "sha256:1111";
     ImageInfo.ImageDigest := imageDigest;
     ImageInfo.IndexDigest := digest_c;
     ImageInfo.IndexMediaType := "application/vnd.oci.image.index.v1+json";
     ImageInfo.Images := [image_a; image_b] |}.

Definition options (name imageDigest : string) : Options.t :=
  {| Options.OS := alpine;
     Options.ImageInfo := image_info name imageDigest;
     Options.Packages := [musl; busybox] |}.

End Sample.

(** ** Properties *)

(** *** Strings *)

#[local] Arguments String.append !_ _ / : simpl nomatch.

Lemma string_app_assoc (s1 s2 s3 : string) :
  (s1 +:+ s2) +:+ s3 = s1 +:+ (s2 +:+ s3).
Proof. induction s1 as [|c s1 IH]; [done|]. cbn. by rewrite IH. Qed.

Lemma string_app_nil_r (s : string) : s +:+ "" = s.
Proof. induction s as [|c s IH]; [done|]. cbn. by rewrite IH. Qed.

Lemma string_app_length (s1 s2 : string) :
  String.length (s1 +:+ s2) = (String.length s1 + String.length s2)%nat.
Proof. induction s1 as [|c s1 IH]; [done|]. cbn. by rewrite IH. Qed.

Lemma string_app_inv_tail (s1 s2 t : string) :
  s1 +:+ t = s2 +:+ t → s1 = s2.
Proof.
  revert s2. induction s1 as [|c1 s1 IH]; intros [|c2 s2] Heq; cbn in Heq.
  - done.
  - apply (f_equal String.length) in Heq. cbn in Heq.
    rewrite string_app_length in Heq. lia.
  - apply (f_equal String.length) in Heq. cbn in Heq.
    rewrite string_app_length in Heq. lia.
  - injection Heq as -> Heq. f_equal. by apply IH.
Qed.

Lemma ContainsRune_app (s1 s2 : string) (c : ascii) :
  GoStrings.ContainsRune (s1 +:+ s2) c
  = GoStrings.ContainsRune s1 c || GoStrings.ContainsRune s2 c.
Proof.
  induction s1 as [|a s1 IH]; [done|]. cbn.
  by destruct (Ascii.eqb a c).
Qed.

(** Two texts free of a character, each followed by nothing or by that
    character and more, are equal when the whole texts are. *)
Lemma split_at_first (c : ascii) (a1 a2 r1 r2 : string) :
  GoStrings.ContainsRune a1 c = false →
  GoStrings.ContainsRune a2 c = false →
  (r1 = "" ∨ ∃ t, r1 = String c t) →
  (r2 = "" ∨ ∃ t, r2 = String c t) →
  a1 +:+ r1 = a2 +:+ r2 →
  a1 = a2 ∧ r1 = r2.
Proof.
  revert a2. induction a1 as [|x a1 IH]; intros [|y a2] Ha1 Ha2 Hr1 Hr2 Heq;
    cbn in Heq, Ha1, Ha2.
  - done.
  - destruct Hr1 as [->|[t ->]]; [done|]. injection Heq as <- _.
    by rewrite Ascii.eqb_refl in Ha2.
  - destruct Hr2 as [->|[t ->]]; [done|]. injection Heq as -> _.
    by rewrite Ascii.eqb_refl in Ha1.
  - injection Heq as -> Heq.
    destruct (Ascii.eqb y c); [done|].
    destruct (IH a2) as [-> ->]; done.
Qed.

(** *** Percent-encoding *)

Lemma unescape_head_escape_byte (c : ascii) (mode : url.encoding) (rest : string) :
  url.unescape_head (url.escape_byte c mode +:+ rest) mode = Some (c, rest).
Proof. destruct mode; destruct c as [[] [] [] [] [] [] [] []]; reflexivity. Qed.

(** Escaping loses nothing: distinct texts have distinct escaped forms. *)
Lemma escape_inj (mode : url.encoding) (s1 s2 : string) :
  url.escape s1 mode = url.escape s2 mode → s1 = s2.
Proof.
  revert s2. induction s1 as [|c1 s1 IH]; intros [|c2 s2] Heq; cbn in Heq.
  - done.
  - apply (f_equal (λ s, url.unescape_head s mode)) in Heq.
    by rewrite unescape_head_escape_byte in Heq.
  - apply (f_equal (λ s, url.unescape_head s mode)) in Heq.
    by rewrite unescape_head_escape_byte in Heq.
  - apply (f_equal (λ s, url.unescape_head s mode)) in Heq.
    rewrite !unescape_head_escape_byte in Heq.
    injection Heq as -> Heq. f_equal. by apply IH.
Qed.

Lemma QueryEscape_byte_no_at (c : ascii) :
  GoStrings.ContainsRune (url.escape_byte c url.encodeQueryComponent) "@" = false.
Proof. destruct c as [[] [] [] [] [] [] [] []]; reflexivity. Qed.

Lemma QueryEscape_no_at (s : string) :
  GoStrings.ContainsRune (url.QueryEscape s) "@" = false.
Proof.
  induction s as [|c s IH]; [done|].
  unfold url.QueryEscape in *. cbn [url.escape].
  by rewrite ContainsRune_app, QueryEscape_byte_no_at, IH.
Qed.

(** *** Identifiers *)

Lemma purl_String_pieces (purlType namespace name version : string)
    (qualifiers : list purl.Qualifier) :
  purl.String (purl.NewPackageURL purlType namespace name version qualifiers "")
  = purl.String_prefix purlType namespace
      +:+ (url.QueryEscape name +:+ purl.String_version version)
      +:+ purl.String_qualifiers qualifiers.
Proof.
  unfold purl.String, purl.String_prefix, purl.String_version,
    purl.String_qualifiers, purl.NewPackageURL.
  cbn [purl.Type_ purl.Namespace purl.Name purl.Version purl.Qualifiers purl.Subpath].
  rewrite (decide_True (P := ("" = ""))) by done. cbv zeta.
  destruct (decide (namespace = "")), (decide (version = "")), qualifiers;
    by rewrite ?string_app_assoc, ?string_app_nil_r.
Qed.

(** An identifier starts with [pkg:], its type and a slash. *)
Lemma purl_String_type (purlType namespace name version : string)
    (qualifiers : list purl.Qualifier) :
  ∃ rest,
    purl.String (purl.NewPackageURL purlType namespace name version qualifiers "")
    = "pkg:" +:+ purlType +:+ "/" +:+ rest.
Proof.
  rewrite purl_String_pieces. unfold purl.String_prefix.
  destruct (decide (namespace = "")); eexists;
    by rewrite ?string_app_assoc.
Qed.

(** With the type, the namespace and the qualifiers fixed, an identifier
    determines its name and its version. *)
Lemma purl_String_inj (purlType namespace : string)
    (qualifiers : list purl.Qualifier) (name1 version1 name2 version2 : string) :
  purl.String (purl.NewPackageURL purlType namespace name1 version1 qualifiers "")
  = purl.String (purl.NewPackageURL purlType namespace name2 version2 qualifiers "") →
  name1 = name2 ∧ version1 = version2.
Proof.
  rewrite !purl_String_pieces. intros Heq.
  apply (inj (String.app _)), string_app_inv_tail in Heq.
  apply (split_at_first "@") in Heq as [Hname Hversion].
  - split; [by apply (escape_inj url.encodeQueryComponent)|].
    unfold purl.String_version in Hversion.
    destruct (decide (version1 = "")) as [->|], (decide (version2 = "")) as [->|];
      try done.
    injection Hversion as Hversion.
    by apply (escape_inj url.encodePathSegment).
  - apply QueryEscape_no_at.
  - apply QueryEscape_no_at.
  - unfold purl.String_version. destruct (decide _); [by left|right; by eexists].
  - unfold purl.String_version. destruct (decide _); [by left|right; by eexists].
Qed.

(** *** Qualifiers *)

Lemma QualifiersFromMap_collect (entries : list (string * string))
    (q : list purl.Qualifier) :
  foldl (λ q kv, q ++ [ {| purl.Key := kv.1; purl.Value := kv.2 |} ]) q entries
  = q ++ ((λ kv, {| purl.Key := kv.1; purl.Value := kv.2 |}) <$> entries).
Proof.
  revert q. induction entries as [|kv entries IH]; intros q; simpl.
  - by rewrite app_nil_r.
  - by rewrite IH, <- app_assoc.
Qed.

#[local] Instance key_le_transitive : Transitive purl.key_le.
Proof. intros q1 q2 q3. unfold purl.key_le. apply transitivity. Qed.

#[local] Instance key_le_total : Total purl.key_le.
Proof. intros q1 q2. unfold purl.key_le. apply total, _. Qed.

Section Qualifiers.
Context (order : MapOrder).

(** The qualifiers are the entries of the map, whatever the iteration
    order was. *)
Lemma QualifiersFromMap_entries (mm : gmap string string) :
  purl.QualifiersFromMap (MO := order) mm
  ≡ₚ (λ kv, {| purl.Key := kv.1; purl.Value := kv.2 |}) <$> map_to_list mm.
Proof.
  unfold purl.QualifiersFromMap. cbv zeta.
  rewrite merge_sort_Permutation, QualifiersFromMap_collect, app_nil_l.
  by rewrite range_order_perm.
Qed.

Lemma QualifiersFromMap_lookup (mm : gmap string string) (q : purl.Qualifier) :
  q ∈ purl.QualifiersFromMap (MO := order) mm ↔ mm !! purl.Key q = Some (purl.Value q).
Proof.
  rewrite QualifiersFromMap_entries, list_elem_of_fmap. split.
  - intros [[k v] [-> Hin]]. by apply elem_of_map_to_list in Hin.
  - intros Hlookup. exists (purl.Key q, purl.Value q). split; [by destruct q|].
    by apply elem_of_map_to_list.
Qed.

(** They come out sorted by key. *)
Lemma QualifiersFromMap_sorted (mm : gmap string string) :
  Sorted purl.key_le (purl.QualifiersFromMap (MO := order) mm).
Proof. apply (Sorted_merge_sort purl.key_le). Qed.

Lemma QualifiersFromMap_keys (mm : gmap string string) :
  NoDup (purl.Key <$> purl.QualifiersFromMap (MO := order) mm).
Proof.
  rewrite QualifiersFromMap_entries, <- list_fmap_compose.
  apply NoDup_fst_map_to_list.
Qed.

End Qualifiers.

(** The qualifiers of a map do not depend on the order in which the map was
    ranged over. *)
Lemma QualifiersFromMap_order (o1 o2 : MapOrder) (mm : gmap string string) :
  purl.QualifiersFromMap (MO := o1) mm = purl.QualifiersFromMap (MO := o2) mm.
Proof.
  apply (Sorted_unique_strong purl.key_le).
  - intros q1 q2 Hq1 Hq2 Hle1 Hle2.
    apply QualifiersFromMap_lookup in Hq1, Hq2.
    assert (purl.Key q1 = purl.Key q2) as Hkey
      by (by apply (anti_symm String.le)).
    destruct q1 as [k1 v1], q2 as [k2 v2]. simpl in *. subst k2.
    rewrite Hq1 in Hq2. by injection Hq2 as ->.
  - apply QualifiersFromMap_sorted.
  - apply QualifiersFromMap_sorted.
  - by rewrite !QualifiersFromMap_entries.
Qed.


Lemma ContainsRune_elem_of (s : string) (c : ascii) :
  GoStrings.ContainsRune s c = bool_decide (c ∈ list_ascii_of_string s).
Proof.
  induction s as [|a s IH]; cbn [GoStrings.ContainsRune list_ascii_of_string].
  - symmetry. apply bool_decide_eq_false, not_elem_of_nil.
  - destruct (Ascii.eqb_spec a c) as [->|Hne].
    + symmetry. apply bool_decide_eq_true. by left.
    + rewrite IH. apply bool_decide_ext. rewrite elem_of_cons.
      split; [by right|by intros [->|?]].
Qed.

Lemma IndexAny_lower_bound (s chars : string) : -1 ≤ GoStrings.IndexAny s chars.
Proof.
  induction s as [|c s IH]; simpl; [lia|].
  destruct (GoStrings.ContainsRune chars c); [lia|].
  destruct (Z.ltb_spec (GoStrings.IndexAny s chars) 0); lia.
Qed.

(** Cutting a dependency at the index that [IndexAny] finds leaves the text
    before the first operator character. *)
Lemma slice_at_IndexAny (dep : string) :
  (let i := GoStrings.IndexAny dep " ~<>=/!" in
   if i >? -1 then GoStrings.slice_to dep i else dep) = bare_name dep.
Proof.
  induction dep as [|c dep IH]; [done|].
  cbn [GoStrings.IndexAny bare_name].
  rewrite ContainsRune_elem_of.
  change (list_ascii_of_string " ~<>=/!")
    with [" "; "~"; "<"; ">"; "="; "/"; "!"]%char.
  destruct (bool_decide _); [done|].
  pose proof (IndexAny_lower_bound dep " ~<>=/!") as Hlb.
  cbv zeta in IH |- *.
  destruct (Z.ltb_spec (GoStrings.IndexAny dep " ~<>=/!") 0) as [Hneg|Hpos].
  - replace (GoStrings.IndexAny dep " ~<>=/!") with (-1) in IH by lia.
    simpl in IH |- *. by rewrite <- IH.
  - destruct (Z.gtb_spec (GoStrings.IndexAny dep " ~<>=/!") (-1)); [|lia].
    destruct (Z.gtb_spec (GoStrings.IndexAny dep " ~<>=/!" + 1) (-1)); [|lia].
    rewrite <- IH. unfold GoStrings.slice_to.
    replace (Z.to_nat (GoStrings.IndexAny dep " ~<>=/!" + 1))
      with (S (Z.to_nat (GoStrings.IndexAny dep " ~<>=/!"))) by lia.
    done.
Qed.

(** What [bare_name] leaves out starts at an operator character, and what
    it keeps has none. *)
Lemma bare_name_prefix (dep : string) :
  ∃ rest,
    dep = bare_name dep +:+ rest
    ∧ (rest = ""
       ∨ ∃ c t, rest = String c t ∧ c ∈ [" "; "~"; "<"; ">"; "="; "/"; "!"]%char)
    ∧ Forall (λ c, c ∉ [" "; "~"; "<"; ">"; "="; "/"; "!"]%char)
             (list_ascii_of_string (bare_name dep)).
Proof.
  induction dep as [|c dep (rest & Hdep & Hrest & Hkept)]; cbn [bare_name].
  - exists "". by repeat split; [left|constructor].
  - destruct (bool_decide_reflect (c ∈ [" "; "~"; "<"; ">"; "="; "/"; "!"]%char))
      as [Hin|Hout].
    + exists (String c dep). split; [done|]. split; [|constructor].
      right. by exists c, dep.
    + exists rest. split; [cbn; by rewrite <- Hdep|].
      split; [done|]. by constructor.
Qed.

Section Properties.
Context `{AD : ArchDecl, ND : NameDecl, MO : MapOrder, IO : IODecl}.

(** *** The loops *)

Lemma depRefs_step_resolve (opts : Options.t) (depRefs : list string) (dep : string) :
  depRefs_step opts depRefs dep = depRefs ++ resolve_dependency opts dep.
Proof.
  unfold depRefs_step, resolve_dependency.
  rewrite ContainsRune_elem_of.
  destruct (bool_decide _); [by rewrite app_nil_r|].
  rewrite slice_at_IndexAny.
  destruct (decide _); [by rewrite app_nil_r|done].
Qed.

Lemma depRefs_loop (opts : Options.t) (deps : list string) (depRefs : list string) :
  foldl (depRefs_step opts) depRefs deps
  = depRefs ++ (deps ≫= resolve_dependency opts).
Proof.
  revert depRefs. induction deps as [|dep deps IH]; intros depRefs; simpl.
  - by rewrite app_nil_r.
  - by rewrite IH, depRefs_step_resolve, <- app_assoc.
Qed.

Lemma Generate_loop (opts : Options.t) (pkgs : list Package.t)
    (cs : list Component) (ds : list Dependency) :
  foldl (Generate_step opts) (cs, ds) pkgs
  = (cs ++ (Generate_pkgComponent opts <$> pkgs),
     ds ++ (Generate_pkgDependency opts <$> pkgs)).
Proof.
  revert cs ds. induction pkgs as [|pkg pkgs IH]; intros cs ds; simpl.
  - by rewrite !app_nil_r.
  - by rewrite IH, <- !app_assoc.
Qed.

Lemma Generate_bom_unfold (opts : Options.t) :
  Generate_bom opts
  = let layerComponent :=
      Generate_layerComponent opts
        (Generate_pkgComponent opts <$> Options.Packages opts) in
    {| BOMFormat := "CycloneDX";
       SpecVersion := "1.4";
       DocVersion := 1;
       DocComponents :=
         if decide (ImageInfo.ImageDigest (Options.ImageInfo opts) ≠ "")
         then [Generate_imageComponent opts layerComponent]
         else [layerComponent];
       Dependencies := Generate_pkgDependency opts <$> Options.Packages opts |}.
Proof.
  unfold Generate_bom. rewrite Generate_loop. cbv zeta.
  by destruct (decide _).
Qed.

Lemma index_loop (opts : Options.t) (infos : list ArchImageInfo.t) (c : Component) :
  foldl (λ indexComponent info,
           append_Components indexComponent (archImageComponent opts info))
        c infos
  = {| BOMRef := BOMRef c; Type_ := Type_ c; Name := Name c;
       Version := Version c; Description := Description c; PUrl := PUrl c;
       Hashes := Hashes c; ExternalReferences := ExternalReferences c;
       Licenses := Licenses c;
       Components := Components c ++ (archImageComponent opts <$> infos) |}.
Proof.
  revert c. induction infos as [|info infos IH]; intros c; simpl.
  - rewrite app_nil_r. by destruct c.
  - rewrite IH. simpl. by rewrite <- app_assoc.
Qed.

Lemma DeepCopy_id (h : v1.Hash) : v1.DeepCopy h = h.
Proof. by destruct h. Qed.

Lemma GenerateIndex_indexComponent_unfold (opts : Options.t)
    (repoName indexComponentName : string) :
  GenerateIndex_indexComponent opts repoName indexComponentName
  = let ii := Options.ImageInfo opts in
    let purlString :=
      ociPurl repoName (ImageInfo.ImageDigest ii) (GenerateIndex_mmMain opts) in
    {| BOMRef := purlString;
       Type_ := "container";
       Name := indexComponentName;
       Version := v1.Hex (ImageInfo.IndexDigest ii);
       Description := "Multi-arch image index";
       PUrl := purlString;
       Hashes :=
         [ {| Algorithm := "SHA-256"; Value := v1.Hex (ImageInfo.IndexDigest ii) |} ];
       ExternalReferences := [];
       Licenses := [];
       Components := archImageComponent opts <$> ImageInfo.Images ii |}.
Proof.
  unfold GenerateIndex_indexComponent. cbv zeta.
  by rewrite index_loop, DeepCopy_id.
Qed.

(** *** Scenario selection *)

(** C2: [Generate] on N packages.  There is a layer component of type
    operating-system with exactly N children, the components of the packages
    in input order, and the dependency list has exactly N entries, the one
    of each package in input order.  Without an image digest the layer is
    the only root; with one, the only root is an image component of type
    container whose only child is that layer. *)
Theorem Generate_scenario_shape (opts : Options.t) :
  let doc := Generate_bom opts in
  let pkgs := Options.Packages opts in
  ∃ layer : Component,
    Type_ layer = "operating-system"
    ∧ length (Components layer) = length pkgs
    ∧ Components layer = Generate_pkgComponent opts <$> pkgs
    ∧ (λ c, (Name c, Version c)) <$> Components layer
      = (λ pkg, (Package.Name pkg, Package.Version pkg)) <$> pkgs
    ∧ Forall (λ c, Components c = []) (Components layer)
    ∧ length (Dependencies doc) = length pkgs
    ∧ Dependencies doc = Generate_pkgDependency opts <$> pkgs
    ∧ Ref <$> Dependencies doc = BOMRef <$> Components layer
    ∧ if decide (ImageInfo.ImageDigest (Options.ImageInfo opts) = "")
      then DocComponents doc = [layer]
      else ∃ image : Component,
             DocComponents doc = [image]
             ∧ Type_ image = "container"
             ∧ Components image = [layer].
Proof.
  intros doc pkgs. subst doc. rewrite Generate_bom_unfold. cbv zeta.
  exists (Generate_layerComponent opts (Generate_pkgComponent opts <$> pkgs)).
  split; [reflexivity|].
  cbn [Components Generate_layerComponent Dependencies DocComponents].
  split; [by rewrite length_fmap|].
  split; [reflexivity|].
  split; [by rewrite <- list_fmap_compose|].
  split; [by apply Forall_fmap, Forall_true|].
  split; [by rewrite length_fmap|].
  split; [reflexivity|].
  split; [by rewrite <- !list_fmap_compose|].
  destruct (decide (ImageInfo.ImageDigest _ = "")) as [Heq|Hne].
  - by rewrite decide_False by auto.
  - rewrite decide_True by auto. eexists. by split.
Qed.

(** *** Dependency resolver *)

(** C3: the loop over the raw dependency strings of a package yields, for
    each string in input order, the edges that the resolver of the
    specification yields for it: none when the string contains a colon, none
    when its text before the first of [space ~ < > = / !] is empty, otherwise
    the one identifier of that text with a blank version and with the
    namespace and the qualifiers of the owning package's own identifier.
    The loop over a concatenation yields the concatenation of the results:
    the order of the input is kept and no duplicate is dropped. *)
Theorem dependency_resolver (opts : Options.t) (pkg : Package.t) :
  Ref (Generate_pkgDependency opts pkg)
  = purl.String
      (purl.NewPackageURL "apk" (OSInfo.ID (Options.OS opts))
         (Package.Name pkg) (Package.Version pkg)
         (purl.QualifiersFromMap
            {[ "arch" := ToAPK (ImageInfo.Arch (Options.ImageInfo opts)) ]})
         "")
  ∧ DependsOn (Generate_pkgDependency opts pkg)
    = Package.Dependencies pkg ≫= resolve_dependency opts
  ∧ ∀ deps deps' : list string,
      foldl (depRefs_step opts) [] (deps ++ deps')
      = foldl (depRefs_step opts) [] deps ++ foldl (depRefs_step opts) [] deps'.
Proof.
  split; [done|]. split.
  - unfold Generate_pkgDependency. cbn [DependsOn]. by rewrite depRefs_loop.
  - intros deps deps'. by rewrite !depRefs_loop, bind_app.
Qed.

(** *** The multi-arch index *)

(** C4: when the configured image reference is not empty and does not
    parse, [GenerateIndex] returns the parser's error, wrapped, before it
    builds a document or touches the file system, while
    [archImageComponent] goes on with the repository name [image]. *)
Theorem reference_parse_failure (opts : Options.t) (info : ArchImageInfo.t)
    (path : string) (w : World) (err : error) :
  ImageInfo.Name (Options.ImageInfo opts) ≠ "" →
  ParseReference (ImageInfo.Name (Options.ImageInfo opts)) = Err err →
  GenerateIndex_names opts = Err (Wrap "parsing image reference" err)
  ∧ GenerateIndex_bom opts = Err (Wrap "parsing image reference" err)
  ∧ GenerateIndex opts path w = (Err (Wrap "parsing image reference" err), w)
  ∧ root_cause (Wrap "parsing image reference" err) = root_cause err
  ∧ archImageComponent_imageRepoName opts = "image"
  ∧ BOMRef (archImageComponent opts info)
    = ociPurl "image" (v1.String (ArchImageInfo.Digest info))
        (archImageComponent_mmMain opts)
  ∧ Name (archImageComponent opts info) = v1.String (ArchImageInfo.Digest info).
Proof.
  intros Hname Hparse.
  assert (GenerateIndex_names opts = Err (Wrap "parsing image reference" err))
    as Hnames.
  { unfold GenerateIndex_names. cbv zeta.
    rewrite decide_True by done. by rewrite Hparse. }
  assert (archImageComponent_imageRepoName opts = "image") as Hrepo.
  { unfold archImageComponent_imageRepoName. cbv zeta.
    destruct (decide (ImageInfo.Name _ ≠ "")); [|done]. by rewrite Hparse. }
  split; [done|].
  split; [unfold GenerateIndex_bom; by rewrite Hnames|].
  split; [unfold GenerateIndex, GenerateIndex_bom; by rewrite Hnames|].
  split; [done|].
  split; [done|].
  unfold archImageComponent. cbv zeta. cbn [BOMRef Name].
  by rewrite Hrepo, DeepCopy_id.
Qed.

(** C5: every call of [GenerateIndex] that builds a document builds one
    whose only root has exactly one child per image of the index, in input
    order, each with exactly one hash, of algorithm SHA-256 and with the hex
    digest of its image; the other calls are those that abort on a reference
    that does not parse. *)
Theorem index_fan_out (opts : Options.t) :
  let images := ImageInfo.Images (Options.ImageInfo opts) in
  match GenerateIndex_bom opts with
  | Ok doc =>
      ∃ index : Component,
        DocComponents doc = [index]
        ∧ length (Components index) = length images
        ∧ Components index = archImageComponent opts <$> images
        ∧ Forall2 (λ c info,
                     Hashes c
                     = [ {| Algorithm := "SHA-256";
                            Value := v1.Hex (ArchImageInfo.Digest info) |} ])
                  (Components index) images
  | Err _ =>
      ImageInfo.Name (Options.ImageInfo opts) ≠ ""
      ∧ ∃ err, ParseReference (ImageInfo.Name (Options.ImageInfo opts)) = Err err
  end.
Proof.
  intros images. unfold GenerateIndex_bom, GenerateIndex_names. cbv zeta.
  assert (∀ repoName indexComponentName,
    ∃ index : Component,
      [GenerateIndex_indexComponent opts repoName indexComponentName] = [index]
      ∧ length (Components index) = length images
      ∧ Components index = archImageComponent opts <$> images
      ∧ Forall2 (λ c info,
                   Hashes c
                   = [ {| Algorithm := "SHA-256";
                          Value := v1.Hex (ArchImageInfo.Digest info) |} ])
                (Components index) images) as Hshape.
  { intros repoName indexComponentName. eexists. split; [reflexivity|].
    rewrite GenerateIndex_indexComponent_unfold. cbv zeta. cbn [Components].
    fold images.
    split; [by rewrite length_fmap|]. split; [done|].
    apply Forall2_fmap_l, Forall_Forall2_diag, Forall_forall.
    intros info _. unfold compose, archImageComponent. cbn [Hashes].
    by rewrite DeepCopy_id. }
  destruct (decide (ImageInfo.Name _ ≠ "")) as [Hname|Hname].
  - destruct (ParseReference _) as [ref|err] eqn:Hparse.
    + apply Hshape.
    + split; [done|]. by exists err.
  - apply Hshape.
Qed.

(** C6: with an empty image name [GenerateIndex] takes [index] as the
    repository name and names the index component by the index digest
    string alone; with a name that parses it names the component
    [<repo>@<digest>].  (With a name that does not parse it aborts.) *)
Theorem index_name_fallback (opts : Options.t) :
  let ii := Options.ImageInfo opts in
  if decide (ImageInfo.Name ii = "") then
    GenerateIndex_names opts = Ok ("index", v1.String (ImageInfo.IndexDigest ii))
    ∧ ∃ doc index,
        GenerateIndex_bom opts = Ok doc
        ∧ DocComponents doc = [index]
        ∧ Name index = v1.String (ImageInfo.IndexDigest ii)
        ∧ BOMRef index
          = ociPurl "index" (ImageInfo.ImageDigest ii) (GenerateIndex_mmMain opts)
  else
    match ParseReference (ImageInfo.Name ii) with
    | Ok ref =>
        ∃ doc index,
          GenerateIndex_bom opts = Ok doc
          ∧ DocComponents doc = [index]
          ∧ Name index
            = RepositoryStr ref +:+ "@" +:+ v1.String (ImageInfo.IndexDigest ii)
          ∧ BOMRef index
            = ociPurl (RepositoryStr ref) (ImageInfo.ImageDigest ii)
                (GenerateIndex_mmMain opts)
    | Err err =>
        GenerateIndex_bom opts = Err (Wrap "parsing image reference" err)
    end.
Proof.
  intros ii. subst ii.
  unfold GenerateIndex_bom, GenerateIndex_names. cbv zeta.
  rewrite DeepCopy_id.
  destruct (decide (ImageInfo.Name _ = "")) as [Hname|Hname].
  - rewrite decide_False by auto. split; [done|].
    do 2 eexists. split; [reflexivity|]. split; [reflexivity|].
    by rewrite GenerateIndex_indexComponent_unfold.
  - rewrite decide_True by auto.
    destruct (ParseReference _) as [ref|err]; [|done].
    do 2 eexists. split; [reflexivity|]. split; [reflexivity|].
    by rewrite GenerateIndex_indexComponent_unfold.
Qed.

(** *** The component tree *)

Lemma tree_components_unfold (c : Component) :
  tree_components c = c :: concat (tree_components <$> Components c).
Proof.
  destruct c as [? ? ? ? ? ? ? ? ? children]. cbn [tree_components Components].
  f_equal. induction children as [|c' children IH]; [done|].
  cbn [fmap list_fmap concat]. by rewrite <- IH.
Qed.

Lemma tree_components_leaves (cs : list Component) :
  Forall (λ c, Components c = []) cs →
  concat (tree_components <$> cs) = cs.
Proof.
  induction 1 as [|c cs Hc _ IH]; [done|].
  cbn [fmap list_fmap concat]. rewrite tree_components_unfold, Hc, IH. done.
Qed.

Lemma Generate_document_components (opts : Options.t) :
  let pkgComponents := Generate_pkgComponent opts <$> Options.Packages opts in
  let layerComponent := Generate_layerComponent opts pkgComponents in
  document_components (Generate_bom opts)
  = (if decide (ImageInfo.ImageDigest (Options.ImageInfo opts) ≠ "")
     then [Generate_imageComponent opts layerComponent] else [])
    ++ layerComponent :: pkgComponents.
Proof.
  cbv zeta. rewrite Generate_bom_unfold. unfold document_components.
  cbv zeta. cbn [DocComponents].
  assert (tree_components
            (Generate_layerComponent opts
               (Generate_pkgComponent opts <$> Options.Packages opts))
          = Generate_layerComponent opts
              (Generate_pkgComponent opts <$> Options.Packages opts)
            :: (Generate_pkgComponent opts <$> Options.Packages opts)) as Hlayer.
  { rewrite tree_components_unfold. cbn [Components Generate_layerComponent].
    rewrite tree_components_leaves; [done|].
    by apply Forall_fmap, Forall_true. }
  destruct (decide _).
  - cbn [fmap list_fmap concat]. rewrite tree_components_unfold.
    cbn [Components Generate_imageComponent fmap list_fmap concat].
    rewrite Hlayer. by rewrite !app_nil_r.
  - cbn [fmap list_fmap concat]. rewrite Hlayer. by rewrite app_nil_r.
Qed.


(** *** Identifier uniqueness *)


(** *** The per-architecture children of the index *)

(** C9: the qualifier map of [archImageComponent] is built from the
    top-level image metadata alone.  Its entries are the top-level
    architecture, its OS, the repository and the index media type, each
    when not empty; the identifier of a child is made of the repository
    name, the digest of the child and that map; and two children with the
    same digest differ at most in their description, whatever their own
    architectures are. *)
Theorem arch_image_qualifiers (opts : Options.t) :
  let ii := Options.ImageInfo opts in
  let top := ImageInfo.Arch ii in
  let mm := archImageComponent_mmMain opts in
  mm !! "arch"
  = (if decide (Architecture_String top ≠ "")
     then Some (v1.Architecture (ToOCIPlatform top)) else None)
  ∧ mm !! "os"
    = (if decide (v1.OS (ToOCIPlatform top) ≠ "")
       then Some (v1.OS (ToOCIPlatform top)) else None)
  ∧ mm !! "repository_url"
    = (if decide (ImageInfo.Repository ii ≠ "")
       then Some (ImageInfo.Repository ii) else None)
  ∧ mm !! "mediaType"
    = (if decide (ImageInfo.IndexMediaType ii ≠ "")
       then Some (ImageInfo.IndexMediaType ii) else None)
  ∧ (∀ k, is_Some (mm !! k) → k ∈ ["arch"; "os"; "repository_url"; "mediaType"])
  ∧ (∀ info : ArchImageInfo.t,
       BOMRef (archImageComponent opts info)
       = purl.String
           (purl.NewPackageURL "oci" "" (archImageComponent_imageRepoName opts)
              (v1.String (ArchImageInfo.Digest info))
              (purl.QualifiersFromMap mm) "")
       ∧ PUrl (archImageComponent opts info) = BOMRef (archImageComponent opts info))
  ∧ (∀ (digest : v1.Hash) (arch1 arch2 : Architecture),
       let c1 := archImageComponent opts
                   {| ArchImageInfo.Digest := digest; ArchImageInfo.Arch := arch1 |} in
       let c2 := archImageComponent opts
                   {| ArchImageInfo.Digest := digest; ArchImageInfo.Arch := arch2 |} in
       BOMRef c1 = BOMRef c2 ∧ PUrl c1 = PUrl c2 ∧ Type_ c1 = Type_ c2
       ∧ Name c1 = Name c2 ∧ Version c1 = Version c2 ∧ Hashes c1 = Hashes c2
       ∧ ExternalReferences c1 = ExternalReferences c2
       ∧ Licenses c1 = Licenses c2 ∧ Components c1 = Components c2).
Proof.
  intros ii top mm. subst mm. unfold archImageComponent_mmMain. cbv zeta.
  fold ii. fold top.
  split; [repeat case_decide; by simplify_map_eq|].
  split; [repeat case_decide; by simplify_map_eq|].
  split; [repeat case_decide; by simplify_map_eq|].
  split; [repeat case_decide; by simplify_map_eq|].
  split.
  { intros k [v Hk]. rewrite !elem_of_cons.
    destruct (decide (k = "arch")) as [->|]; [auto|].
    destruct (decide (k = "os")) as [->|]; [auto|].
    destruct (decide (k = "repository_url")) as [->|]; [auto|].
    destruct (decide (k = "mediaType")) as [->|]; [auto|].
    repeat case_decide; by simplify_map_eq. }
  split.
  - intros info. unfold archImageComponent, ociPurl. cbv zeta. cbn [BOMRef PUrl].
    by rewrite DeepCopy_id.
  - intros digest arch1 arch2. cbv zeta. by repeat split.
Qed.

(** *** The image component *)

(** C10: with an image digest, the only root of the document of
    [Generate] is the image component; its name and its version are empty,
    it has no hashes, references or licenses, and what it does carry is its
    identifier (as [BOMRef] and [PUrl]), the type container, the fixed
    description and the layer as its only child. *)
Theorem image_component_fields (opts : Options.t) :
  ImageInfo.ImageDigest (Options.ImageInfo opts) ≠ "" →
  ∃ image : Component,
    DocComponents (Generate_bom opts) = [image]
    ∧ Name image = ""
    ∧ Version image = ""
    ∧ Hashes image = []
    ∧ ExternalReferences image = []
    ∧ Licenses image = []
    ∧ Type_ image = "container"
    ∧ Description image = "apko container image"
    ∧ BOMRef image
      = ociPurl (ImageInfo.Name (Options.ImageInfo opts))
          (ImageInfo.ImageDigest (Options.ImageInfo opts)) (Generate_mmMain opts)
    ∧ BOMRef image ≠ ""
    ∧ PUrl image = BOMRef image
    ∧ Components image
      = [Generate_layerComponent opts
           (Generate_pkgComponent opts <$> Options.Packages opts)].
Proof.
  intros Hdigest. rewrite Generate_bom_unfold. cbv zeta. cbn [DocComponents].
  rewrite decide_True by done. eexists. split; [reflexivity|].
  cbn. repeat split.
  unfold ociPurl.
  destruct (purl_String_type purl.TypeOCI ""
              (ImageInfo.Name (Options.ImageInfo opts))
              (ImageInfo.ImageDigest (Options.ImageInfo opts))
              (purl.QualifiersFromMap (Generate_mmMain opts))) as [rest ->].
  done.
Qed.

End Properties.

(** *** Determinism *)
Section Determinism.
Context `{AD : ArchDecl, ND : NameDecl, IO : IODecl}.
Context (o1 o2 : MapOrder).

Lemma pkgPurl_order (opts : Options.t) (name version : string) :
  pkgPurl (MO := o1) opts name version = pkgPurl (MO := o2) opts name version.
Proof. unfold pkgPurl. by rewrite (QualifiersFromMap_order o1 o2). Qed.

Lemma ociPurl_order (name version : string) (mm : gmap string string) :
  ociPurl (MO := o1) name version mm = ociPurl (MO := o2) name version mm.
Proof. unfold ociPurl. by rewrite (QualifiersFromMap_order o1 o2). Qed.

Lemma depRefs_order (opts : Options.t) (deps depRefs : list string) :
  foldl (depRefs_step (MO := o1) opts) depRefs deps
  = foldl (depRefs_step (MO := o2) opts) depRefs deps.
Proof.
  revert depRefs. induction deps as [|dep deps IH]; intros depRefs; [done|].
  cbn [foldl]. rewrite IH. f_equal.
  unfold depRefs_step. by rewrite pkgPurl_order.
Qed.

Lemma Generate_pkgComponent_order (opts : Options.t) (pkg : Package.t) :
  Generate_pkgComponent (MO := o1) opts pkg
  = Generate_pkgComponent (MO := o2) opts pkg.
Proof. unfold Generate_pkgComponent. by rewrite pkgPurl_order. Qed.

Lemma Generate_pkgDependency_order (opts : Options.t) (pkg : Package.t) :
  Generate_pkgDependency (MO := o1) opts pkg
  = Generate_pkgDependency (MO := o2) opts pkg.
Proof.
  unfold Generate_pkgDependency. by rewrite pkgPurl_order, depRefs_order.
Qed.

Lemma Generate_bom_order (opts : Options.t) :
  Generate_bom (MO := o1) opts = Generate_bom (MO := o2) opts.
Proof.
  rewrite !Generate_bom_unfold. cbv zeta.
  unfold Generate_imageComponent, Generate_layerComponent.
  rewrite !ociPurl_order.
  rewrite (list_fmap_ext (Generate_pkgComponent (MO := o1) opts)
             (Generate_pkgComponent (MO := o2) opts))
    by (intros; apply Generate_pkgComponent_order).
  rewrite (list_fmap_ext (Generate_pkgDependency (MO := o1) opts)
             (Generate_pkgDependency (MO := o2) opts))
    by (intros; apply Generate_pkgDependency_order).
  done.
Qed.

Lemma archImageComponent_order (opts : Options.t) (info : ArchImageInfo.t) :
  archImageComponent (MO := o1) opts info = archImageComponent (MO := o2) opts info.
Proof. unfold archImageComponent. by rewrite ociPurl_order. Qed.

Lemma GenerateIndex_bom_order (opts : Options.t) :
  GenerateIndex_bom (MO := o1) opts = GenerateIndex_bom (MO := o2) opts.
Proof.
  unfold GenerateIndex_bom. destruct (GenerateIndex_names opts) as [[??]|]; [|done].
  rewrite !GenerateIndex_indexComponent_unfold. cbv zeta.
  rewrite ociPurl_order.
  rewrite (list_fmap_ext (archImageComponent (MO := o1) opts)
             (archImageComponent (MO := o2) opts))
    by (intros; apply archImageComponent_order).
  done.
Qed.

(** C7: two runs on the same input, each with its own iteration order of
    the maps, build the same qualifiers, sorted by key, the same
    identifiers and the same documents, and leave the same result and the
    same bytes in the file system. *)
Theorem generation_deterministic (opts : Options.t) (path : string) (w : World) :
  (∀ mm : gmap string string,
     purl.QualifiersFromMap (MO := o1) mm = purl.QualifiersFromMap (MO := o2) mm
     ∧ Sorted purl.key_le (purl.QualifiersFromMap (MO := o1) mm)
     ∧ NoDup (purl.Key <$> purl.QualifiersFromMap (MO := o1) mm)
     ∧ ∀ q, q ∈ purl.QualifiersFromMap (MO := o1) mm
            ↔ mm !! purl.Key q = Some (purl.Value q))
  ∧ (∀ (purlType namespace name version subpath : string) (mm : gmap string string),
       purl.String (purl.NewPackageURL purlType namespace name version
                      (purl.QualifiersFromMap (MO := o1) mm) subpath)
       = purl.String (purl.NewPackageURL purlType namespace name version
                        (purl.QualifiersFromMap (MO := o2) mm) subpath))
  ∧ Generate_bom (MO := o1) opts = Generate_bom (MO := o2) opts
  ∧ GenerateIndex_bom (MO := o1) opts = GenerateIndex_bom (MO := o2) opts
  ∧ Generate (MO := o1) opts path w = Generate (MO := o2) opts path w
  ∧ GenerateIndex (MO := o1) opts path w = GenerateIndex (MO := o2) opts path w.
Proof.
  split.
  { intros mm. split; [apply QualifiersFromMap_order|].
    split; [apply QualifiersFromMap_sorted|].
    split; [apply QualifiersFromMap_keys|].
    intros q. apply QualifiersFromMap_lookup. }
  split; [intros; by rewrite (QualifiersFromMap_order o1 o2)|].
  split; [apply Generate_bom_order|].
  split; [apply GenerateIndex_bom_order|].
  split.
  - unfold Generate. by rewrite Generate_bom_order.
  - unfold GenerateIndex. by rewrite GenerateIndex_bom_order.
Qed.

End Determinism.

(** ** Concrete evaluations *)
Section Evaluations.
Import Sample.
#[local] Existing Instances arch refs stored_order files.

(** The dependency strings of the specification's examples. *)
Example resolve_virtual :
  resolve_dependency (options "" "") "so:libc.so.6" = [].
Proof. reflexivity. Qed.

Example resolve_versioned :
  resolve_dependency (options "" "") "musl>=1.2.3"
  = ["pkg:apk/alpine/musl?arch=amd64"].
Proof. vm_compute. reflexivity. Qed.

Example resolve_empty :
  resolve_dependency (options "" "") "" = []
  ∧ resolve_dependency (options "" "") "/bin/sh" = [].
Proof. split; reflexivity. Qed.

Example depends_on_busybox :
  DependsOn (Generate_pkgDependency (options "" "") busybox)
  = ["pkg:apk/alpine/musl?arch=amd64"; "pkg:apk/alpine/scanelf?arch=amd64";
     "pkg:apk/alpine/musl?arch=amd64"].
Proof. vm_compute. reflexivity. Qed.

(** C1: on an index whose digest is [sha256:cccc], built with no image name
    and the image digest [sha256:2222] in the options, the identifier of the
    index component has the image digest as its version part, not the index
    digest. *)
Theorem index_identifier_version :
  let opts := options "" "sha256:2222" in
  let ii := Options.ImageInfo opts in
  ∃ doc index,
    GenerateIndex_bom opts = Ok doc
    ∧ DocComponents doc = [index]
    ∧ v1.String (ImageInfo.IndexDigest ii) = "sha256:cccc"
    ∧ Name index = "sha256:cccc"
    ∧ BOMRef index
      = "pkg:oci/index@sha256:2222?arch=amd64&mediaType=application%2Fvnd.oci.image.index.v1+json&repository_url=registry.example%2Fapp"
    ∧ PUrl index = BOMRef index
    ∧ BOMRef index
      = ociPurl "index" (ImageInfo.ImageDigest ii) (GenerateIndex_mmMain opts)
    ∧ BOMRef index
      ≠ ociPurl "index" (v1.String (ImageInfo.IndexDigest ii))
          (GenerateIndex_mmMain opts).
Proof.
  cbv zeta. do 2 eexists. split; [reflexivity|]. split; [reflexivity|].
  repeat split; try (vm_compute; reflexivity).
  vm_compute. discriminate.
Qed.


(** The hypotheses of [reference_parse_failure] hold for the reference
    [bad ref], which the parser of the examples rejects. *)
Lemma reference_parse_failure_witness :
  let opts := options "bad ref" "" in
  ImageInfo.Name (Options.ImageInfo opts) ≠ ""
  ∧ ParseReference (ImageInfo.Name (Options.ImageInfo opts))
    = Err (ErrBadName "could not parse reference: bad ref")
  ∧ GenerateIndex opts "sbom.cdx" no_files
    = (Err (Wrap "parsing image reference"
              (ErrBadName "could not parse reference: bad ref")), no_files)
  ∧ archImageComponent_imageRepoName opts = "image"
  ∧ Name (archImageComponent opts image_a) = "sha256:aaaa".
Proof.
  cbv zeta.
  assert (ImageInfo.Name (Options.ImageInfo (options "bad ref" "")) ≠ "")
    as Hname by discriminate.
  assert (ParseReference (ImageInfo.Name (Options.ImageInfo (options "bad ref" "")))
          = Err (ErrBadName "could not parse reference: bad ref"))
    as Hparse by reflexivity.
  split; [exact Hname|]. split; [exact Hparse|].
  destruct (reference_parse_failure (options "bad ref" "") image_a
              "sbom.cdx" no_files _ Hname Hparse)
    as (_ & _ & Hrun & _ & Hrepo & _ & Hcomponent).
  split; [exact Hrun|]. split; [exact Hrepo|exact Hcomponent].
Defined.


(** The hypothesis of [image_component_fields] holds for the image digest
    [sha256:2222]. *)
Lemma image_component_fields_witness :
  ImageInfo.ImageDigest (Options.ImageInfo (options "" "sha256:2222")) ≠ ""
  ∧ ∃ image : Component,
      DocComponents (Generate_bom (options "" "sha256:2222")) = [image]
      ∧ Name image = "" ∧ Version image = "" ∧ Type_ image = "container".
Proof.
  assert (ImageInfo.ImageDigest (Options.ImageInfo (options "" "sha256:2222")) ≠ "")
    as Hdigest by discriminate.
  split; [exact Hdigest|].
  destruct (image_component_fields (options "" "sha256:2222") Hdigest)
    as (image & Hroot & Hname & Hversion & _ & _ & _ & Htype & _).
  exists image. by repeat split.
Defined.

End Evaluations.

(** ** Further properties of the generator *)

(** *** The cut of a dependency string *)

(** X1: [strings.IndexAny] either finds nothing, and then no byte of the text
    is in the set, or returns the position of the first byte that is: the
    position is inside the text, so the slice [s[:i]] is in bounds, has
    exactly [i] bytes, none of them in the set, and is followed in [s] by a
    byte of the set. *)
Theorem IndexAny_first_match (s chars : string) :
  let i := GoStrings.IndexAny s chars in
  (i = -1
   ∧ Forall (λ c, GoStrings.ContainsRune chars c = false) (list_ascii_of_string s))
  ∨ (0 ≤ i < Z.of_nat (String.length s)
     ∧ String.length (GoStrings.slice_to s i) = Z.to_nat i
     ∧ Forall (λ c, GoStrings.ContainsRune chars c = false)
              (list_ascii_of_string (GoStrings.slice_to s i))
     ∧ ∃ c rest,
         s = GoStrings.slice_to s i +:+ String c rest
         ∧ GoStrings.ContainsRune chars c = true).
Proof.
  induction s as [|a s IH]; cbn [GoStrings.IndexAny].
  - left. by split; [|constructor].
  - destruct (GoStrings.ContainsRune chars a) eqn:Ha.
    + right. cbn. split; [lia|]. split; [done|]. split; [constructor|].
      by exists a, s.
    + cbv zeta in IH |- *. destruct IH as [[Hi Hs]|(Hi & Hlen & Hcut & c & rest & Hs & Hc)].
      * left. rewrite Hi. cbn. split; [done|]. by constructor.
      * right. destruct (Z.ltb_spec (GoStrings.IndexAny s chars) 0); [lia|].
        unfold GoStrings.slice_to in *.
        replace (Z.to_nat (GoStrings.IndexAny s chars + 1))
          with (S (Z.to_nat (GoStrings.IndexAny s chars))) by lia.
        cbn [String.substring String.length list_ascii_of_string].
        split; [cbn [String.length]; lia|]. split; [by rewrite Hlen|].
        split; [by constructor|].
        exists c, rest. split; [|done]. cbn. by rewrite <- Hs.
Qed.

Section Further.
Context `{AD : ArchDecl, ND : NameDecl, MO : MapOrder, IO : IODecl}.

(** *** Dependency edges *)



Lemma resolve_dependency_length (opts : Options.t) (dep : string) :
  length (resolve_dependency opts dep)
  = if bool_decide ((":"%char ∉ list_ascii_of_string dep) ∧ bare_name dep ≠ "")
    then 1%nat else 0%nat.
Proof.
  unfold resolve_dependency.
  destruct (bool_decide_reflect (":"%char ∈ list_ascii_of_string dep)).
  - rewrite bool_decide_eq_false_2; [done|]. by intros [? _].
  - destruct (decide (bare_name dep = "")).
    + rewrite bool_decide_eq_false_2; [done|]. by intros [_ ?].
    + by rewrite bool_decide_eq_true_2.
Qed.

(** X3: a package has at most as many edges as raw dependencies, and exactly as
    many when every raw dependency is free of colons and does not start
    with an operator character. *)
Theorem edge_count (opts : Options.t) (pkg : Package.t) :
  (length (DependsOn (Generate_pkgDependency opts pkg))
   ≤ length (Package.Dependencies pkg))%nat
  ∧ (length (DependsOn (Generate_pkgDependency opts pkg))
     = length (Package.Dependencies pkg)
     ↔ Forall (λ dep, (":"%char ∉ list_ascii_of_string dep) ∧ bare_name dep ≠ "")
              (Package.Dependencies pkg)).
Proof.
  unfold Generate_pkgDependency. cbn [DependsOn].
  rewrite depRefs_loop, app_nil_l.
  induction (Package.Dependencies pkg) as [|dep deps [IHle IHeq]].
  - split; [done|]. split; [constructor|done].
  - cbn [mbind list_bind]. rewrite length_app, resolve_dependency_length.
    cbn [length]. rewrite Forall_cons.
    destruct (bool_decide_reflect
                ((":"%char ∉ list_ascii_of_string dep) ∧ bare_name dep ≠ ""))
      as [Hdep|Hdep].
    + split; [lia|]. rewrite <- IHeq. split; [intros; split; [done|lia]|].
      intros [_ ?]. lia.
    + split; [lia|]. split; [lia|]. by intros [? _].
Qed.

(** *** The envelope *)

(** X4: every document, of [Generate] and of [GenerateIndex], has the format
    name CycloneDX, the specification version 1.4, the document version 1
    and exactly one root component; a document of [GenerateIndex] has no
    dependencies. *)
Theorem document_envelope (opts : Options.t) :
  (BOMFormat (Generate_bom opts) = "CycloneDX"
   ∧ SpecVersion (Generate_bom opts) = "1.4"
   ∧ DocVersion (Generate_bom opts) = 1
   ∧ length (DocComponents (Generate_bom opts)) = 1%nat)
  ∧ ∀ doc, GenerateIndex_bom opts = Ok doc →
      BOMFormat doc = "CycloneDX"
      ∧ SpecVersion doc = "1.4"
      ∧ DocVersion doc = 1
      ∧ length (DocComponents doc) = 1%nat
      ∧ Dependencies doc = [].
Proof.
  split.
  - rewrite Generate_bom_unfold. cbv zeta. cbn.
    repeat split. by destruct (decide _).
  - intros doc. unfold GenerateIndex_bom.
    destruct (GenerateIndex_names opts) as [[repoName name]|]; [|done].
    by intros [= <-].
Qed.

(** *** Invariants of the component tree *)

Lemma GenerateIndex_document_components (opts : Options.t) (doc : Document) :
  GenerateIndex_bom opts = Ok doc →
  ∃ repoName indexComponentName,
    GenerateIndex_names opts = Ok (repoName, indexComponentName)
    ∧ document_components doc
      = GenerateIndex_indexComponent opts repoName indexComponentName
        :: (archImageComponent opts <$> ImageInfo.Images (Options.ImageInfo opts)).
Proof.
  unfold GenerateIndex_bom.
  destruct (GenerateIndex_names opts) as [[repoName name]|]; [|done].
  intros [= <-]. exists repoName, name. split; [done|].
  unfold document_components. cbn [DocComponents fmap list_fmap concat].
  rewrite app_nil_r, tree_components_unfold. f_equal.
  rewrite GenerateIndex_indexComponent_unfold. cbv zeta. cbn [Components].
  apply tree_components_leaves, Forall_fmap, Forall_true. done.
Qed.

Lemma ociPurl_nonempty (name version : string) (mm : gmap string string) :
  ociPurl name version mm ≠ "".
Proof.
  unfold ociPurl.
  by destruct (purl_String_type purl.TypeOCI "" name version
                 (purl.QualifiersFromMap mm)) as [rest ->].
Qed.

Lemma pkgPurl_nonempty (opts : Options.t) (name version : string) :
  pkgPurl opts name version ≠ "".
Proof.
  unfold pkgPurl.
  by destruct (purl_String_type "apk" (OSInfo.ID (Options.OS opts)) name version
                 (purl.QualifiersFromMap (Generate_mm opts))) as [rest ->].
Qed.

(** X5: at every position of every document, of [Generate] and of
    [GenerateIndex], the component carries the same text as [BOMRef] and as
    [PUrl], and that text is not empty. *)
Theorem identifier_is_purl (opts : Options.t) :
  Forall (λ c, PUrl c = BOMRef c ∧ BOMRef c ≠ "")
         (document_components (Generate_bom opts))
  ∧ ∀ doc, GenerateIndex_bom opts = Ok doc →
      Forall (λ c, PUrl c = BOMRef c ∧ BOMRef c ≠ "") (document_components doc).
Proof.
  split.
  - rewrite Generate_document_components. cbv zeta.
    apply Forall_app. split.
    + destruct (decide _); repeat constructor. apply ociPurl_nonempty.
    + constructor; [split; [done|apply ociPurl_nonempty]|].
      apply Forall_fmap, Forall_true. intros pkg. split; [done|].
      apply pkgPurl_nonempty.
  - intros doc (repoName & name & _ & ->)%GenerateIndex_document_components.
    constructor.
    + rewrite GenerateIndex_indexComponent_unfold. cbv zeta.
      split; [done|apply ociPurl_nonempty].
    + apply Forall_fmap, Forall_true. intros info. split; [done|].
      apply ociPurl_nonempty.
Qed.

(** X6: in a document of [Generate] no component has hashes or external
    references; a component with a license has exactly one, is a leaf and
    has the type operating-system; and only the first component, the root,
    can have the type container. *)
Theorem Generate_component_kinds (opts : Options.t) :
  Forall (λ c,
            Hashes c = [] ∧ ExternalReferences c = []
            ∧ (Licenses c = []
               ∨ (length (Licenses c) = 1%nat ∧ Components c = []
                  ∧ Type_ c = "operating-system")))
         (document_components (Generate_bom opts))
  ∧ Forall (λ c, Type_ c = "operating-system")
           (tail (document_components (Generate_bom opts)))
  ∧ ∃ root, head (document_components (Generate_bom opts)) = Some root
            ∧ (Type_ root = "container"
               ↔ ImageInfo.ImageDigest (Options.ImageInfo opts) ≠ "").
Proof.
  rewrite Generate_document_components. cbv zeta.
  split; [|split].
  - apply Forall_app. split.
    + destruct (decide _); repeat constructor.
    + constructor; [by repeat split; left|].
      apply Forall_fmap, Forall_true. intros pkg. by repeat split; right.
  - destruct (decide _); cbn [app tail].
    + constructor; [done|]. by apply Forall_fmap, Forall_true.
    + by apply Forall_fmap, Forall_true.
  - destruct (decide _) as [Hdigest|Hdigest]; eexists; (split; [reflexivity|]);
      cbn; by split.
Qed.

(** X7: in a document of [GenerateIndex] every component has the type
    container, exactly one hash, of algorithm SHA-256, no license and no
    external reference, and every component but the root is a leaf whose
    name and version are the same digest string. *)
Theorem GenerateIndex_component_kinds (opts : Options.t) (doc : Document) :
  GenerateIndex_bom opts = Ok doc →
  Forall (λ c,
            Type_ c = "container" ∧ Licenses c = [] ∧ ExternalReferences c = []
            ∧ ∃ hex, Hashes c = [ {| Algorithm := "SHA-256"; Value := hex |} ])
         (document_components doc)
  ∧ Forall (λ c, Components c = [] ∧ Name c = Version c)
           (tail (document_components doc)).
Proof.
  intros (repoName & name & _ & ->)%GenerateIndex_document_components.
  cbn [tail]. split.
  - constructor.
    + rewrite GenerateIndex_indexComponent_unfold. cbv zeta.
      repeat split. by eexists.
    + apply Forall_fmap, Forall_true. intros info. repeat split. by eexists.
  - by apply Forall_fmap, Forall_true.
Qed.

(** X8: a document of [Generate] has one component per package, one for the
    layer and, with an image digest, one for the image; a document of
    [GenerateIndex] has one per image and one for the index. *)
Theorem component_count (opts : Options.t) :
  length (document_components (Generate_bom opts))
  = (length (Options.Packages opts) + 1
     + if decide (ImageInfo.ImageDigest (Options.ImageInfo opts) = "")
       then 0 else 1)%nat
  ∧ ∀ doc, GenerateIndex_bom opts = Ok doc →
      length (document_components doc)
      = (length (ImageInfo.Images (Options.ImageInfo opts)) + 1)%nat.
Proof.
  split.
  - rewrite Generate_document_components. cbv zeta.
    rewrite length_app. cbn [length]. rewrite length_fmap.
    destruct (decide (_ = "")) as [Heq|Hne].
    + rewrite decide_False by auto. cbn. lia.
    + rewrite decide_True by auto. cbn. lia.
  - intros doc (repoName & name & _ & ->)%GenerateIndex_document_components.
    cbn [length]. rewrite length_fmap. lia.
Qed.

(** *** Identifier clashes *)

(** X9: the conditions of identifier uniqueness are necessary: a document of
    [Generate] with pairwise distinct identifiers comes from packages with
    pairwise distinct (name, version) pairs and from an image digest that is
    empty or is not the layer digest. *)
Theorem identifiers_unique_only_if (opts : Options.t) :
  unique_identifiers (Generate_bom opts) →
  distinct_packages opts
  ∧ (ImageInfo.ImageDigest (Options.ImageInfo opts) = ""
     ∨ ImageInfo.ImageDigest (Options.ImageInfo opts)
       ≠ ImageInfo.LayerDigest (Options.ImageInfo opts)).
Proof.
  unfold unique_identifiers, distinct_packages.
  rewrite Generate_document_components. cbv zeta.
  rewrite fmap_app. intros Hnodup. split.
  - apply NoDup_app in Hnodup as (_ & _ & Hrest).
    cbn [fmap list_fmap] in Hrest. apply NoDup_cons in Hrest as [_ Hleaves].
    rewrite <- list_fmap_compose in Hleaves.
    rewrite (list_fmap_ext _
      ((λ nv, pkgPurl opts nv.1 nv.2)
         ∘ (λ pkg, (Package.Name pkg, Package.Version pkg)))
      (Options.Packages opts)) in Hleaves by done.
    rewrite list_fmap_compose in Hleaves. by apply NoDup_fmap_1 in Hleaves.
  - destruct (decide (ImageInfo.ImageDigest (Options.ImageInfo opts) = ""))
      as [|Hdigest]; [by left|right].
    intros Heq. rewrite decide_True in Hnodup by done.
    cbn [fmap list_fmap app BOMRef Generate_imageComponent
           Generate_layerComponent] in Hnodup.
    rewrite Heq in Hnodup. apply NoDup_cons in Hnodup as [Hin _].
    apply Hin. by left.
Qed.

Lemma index_children_NoDup (opts : Options.t) :
  NoDup (BOMRef <$> (archImageComponent opts
                       <$> ImageInfo.Images (Options.ImageInfo opts)))
  ↔ NoDup ((λ info, v1.String (ArchImageInfo.Digest info))
             <$> ImageInfo.Images (Options.ImageInfo opts)).
Proof.
  rewrite <- list_fmap_compose.
  rewrite (list_fmap_ext _
    ((λ version, ociPurl (archImageComponent_imageRepoName opts) version
                   (archImageComponent_mmMain opts))
       ∘ (λ info, v1.String (ArchImageInfo.Digest info)))
    (ImageInfo.Images (Options.ImageInfo opts))).
  2: { intros i info _. unfold compose, archImageComponent. cbn [BOMRef].
       by rewrite DeepCopy_id. }
  rewrite list_fmap_compose. split.
  - apply NoDup_fmap_1.
  - apply NoDup_fmap_2_strong. intros v1 v2 _ _ Heq.
    by apply purl_String_inj in Heq as [_ ?].
Qed.

(** X10: the children of the index component have pairwise distinct identifiers
    exactly when the images of the index have pairwise distinct digest
    strings. *)
Theorem index_children_unique (opts : Options.t)
    (repoName indexComponentName : string) :
  NoDup (BOMRef <$> Components
           (GenerateIndex_indexComponent opts repoName indexComponentName))
  ↔ NoDup ((λ info, v1.String (ArchImageInfo.Digest info))
             <$> ImageInfo.Images (Options.ImageInfo opts)).
Proof.
  rewrite GenerateIndex_indexComponent_unfold. cbv zeta. cbn [Components].
  apply index_children_NoDup.
Qed.

(** X11: without an image name, the identifier of the index component, built on
    the name [index], is none of the identifiers of its children, built on
    the name [image]: the document of [GenerateIndex] has pairwise distinct
    identifiers as soon as the images have pairwise distinct digest
    strings. *)
Theorem index_identifiers_unique (opts : Options.t) :
  ImageInfo.Name (Options.ImageInfo opts) = "" →
  NoDup ((λ info, v1.String (ArchImageInfo.Digest info))
           <$> ImageInfo.Images (Options.ImageInfo opts)) →
  ∃ doc, GenerateIndex_bom opts = Ok doc ∧ unique_identifiers doc.
Proof.
  intros Hname Hdigests.
  assert (GenerateIndex_names opts
          = Ok ("index", v1.String (ImageInfo.IndexDigest (Options.ImageInfo opts))))
    as Hnames.
  { unfold GenerateIndex_names. cbv zeta.
    rewrite decide_False by auto. by rewrite DeepCopy_id. }
  assert (archImageComponent_imageRepoName opts = "image") as Hrepo.
  { unfold archImageComponent_imageRepoName. cbv zeta.
    by destruct (decide (ImageInfo.Name _ ≠ "")). }
  destruct (GenerateIndex_bom opts) as [doc|err] eqn:Hbom.
  2: { unfold GenerateIndex_bom in Hbom. by rewrite Hnames in Hbom. }
  exists doc. split; [done|]. unfold unique_identifiers.
  destruct (GenerateIndex_document_components opts doc Hbom)
    as (repoName & name & Hnames' & ->).
  rewrite Hnames in Hnames'. injection Hnames' as <- <-.
  cbn [fmap list_fmap]. apply NoDup_cons. split.
  - rewrite GenerateIndex_indexComponent_unfold. cbv zeta. cbn [BOMRef].
    rewrite <- list_fmap_compose, list_elem_of_fmap. intros (info & Heq & _).
    unfold compose, archImageComponent in Heq. cbn [BOMRef] in Heq.
    rewrite Hrepo in Heq. unfold ociPurl in Heq.
    rewrite !purl_String_pieces in Heq. cbn in Heq. discriminate.
  - by apply index_children_NoDup.
Qed.

(** *** Qualifier maps and repository names across the three builders *)

(** X12: the qualifier map of the index component is that of [Generate]'s layer
    and image components plus, possibly, [mediaType]; the qualifier map of a
    child of the index is that of the index component plus, possibly,
    [os]. *)
Theorem qualifier_maps_nested (opts : Options.t) :
  Generate_mmMain opts ⊆ GenerateIndex_mmMain opts
  ∧ GenerateIndex_mmMain opts ⊆ archImageComponent_mmMain opts
  ∧ (∀ k, k ≠ "mediaType" →
          GenerateIndex_mmMain opts !! k = Generate_mmMain opts !! k)
  ∧ (∀ k, k ≠ "os" →
          archImageComponent_mmMain opts !! k = GenerateIndex_mmMain opts !! k)
  ∧ Generate_mmMain opts !! "mediaType" = None
  ∧ GenerateIndex_mmMain opts !! "os" = None.
Proof.
  assert (∀ k, k ≠ "mediaType" →
            GenerateIndex_mmMain opts !! k = Generate_mmMain opts !! k) as Hmedia.
  { intros k Hk. unfold GenerateIndex_mmMain, Generate_mmMain. cbv zeta.
    repeat case_decide; by rewrite ?(lookup_insert_ne _ "mediaType") by done. }
  assert (∀ k, k ≠ "os" →
            archImageComponent_mmMain opts !! k = GenerateIndex_mmMain opts !! k)
    as Hos.
  { intros k Hk. unfold archImageComponent_mmMain, GenerateIndex_mmMain. cbv zeta.
    repeat case_decide;
      try done;
      destruct (decide (k = "mediaType")) as [->|];
      by rewrite ?lookup_insert_eq, ?(lookup_insert_ne _ "mediaType"),
           ?(lookup_insert_ne _ "os") by done. }
  assert (Generate_mmMain opts !! "mediaType" = None) as Hnomedia.
  { unfold Generate_mmMain. cbv zeta. repeat case_decide; by simplify_map_eq. }
  assert (GenerateIndex_mmMain opts !! "os" = None) as Hnoos.
  { unfold GenerateIndex_mmMain. cbv zeta. repeat case_decide; by simplify_map_eq. }
  split; [|split]; [| |done].
  - apply map_subseteq_spec. intros k v Hk.
    destruct (decide (k = "mediaType")) as [->|]; [congruence|].
    by rewrite Hmedia.
  - apply map_subseteq_spec. intros k v Hk.
    destruct (decide (k = "os")) as [->|]; [congruence|].
    by rewrite Hos.
Qed.

(** X13: the repository name of the children follows that of the index: it is
    the parsed repository when there is a name, it parses and the repository
    is not empty, and [image] in every other case, also where the index
    itself uses [index], an empty repository, or aborts. *)
Theorem repository_names_agree (opts : Options.t) :
  match GenerateIndex_names opts with
  | Ok (repoName, _) =>
      archImageComponent_imageRepoName opts
      = if decide (ImageInfo.Name (Options.ImageInfo opts) = "" ∨ repoName = "")
        then "image" else repoName
  | Err _ => archImageComponent_imageRepoName opts = "image"
  end.
Proof.
  unfold GenerateIndex_names, archImageComponent_imageRepoName. cbv zeta.
  destruct (decide (ImageInfo.Name _ ≠ "")) as [Hname|Hname].
  - destruct (ParseReference _) as [ref|err]; [|done].
    destruct (decide (RepositoryStr ref = "")) as [Hrepo|Hrepo].
    + rewrite Hrepo. by rewrite (decide_True (P := _ ∨ _)) by auto.
    + rewrite decide_True by done. rewrite decide_False; [done|].
      by intros [?|?].
  - rewrite (decide_True (P := _ ∨ _)); [done|]. left.
    by destruct (decide (ImageInfo.Name (Options.ImageInfo opts) = "")).
Qed.

(** *** Inputs that are not read *)

(** X14: [GenerateIndex] reads nothing but the image information: the packages
    and the OS record do not change its document.  [Generate] reads none of
    the index digest, the index media type and the images of the index. *)
Theorem unused_inputs (opts : Options.t) :
  (∀ (os : OSInfo.t) (pkgs : list Package.t),
     GenerateIndex_bom
       {| Options.OS := os; Options.ImageInfo := Options.ImageInfo opts;
          Options.Packages := pkgs |}
     = GenerateIndex_bom opts)
  ∧ (∀ (digest : v1.Hash) (mediaType : string) (images : list ArchImageInfo.t),
       let ii := Options.ImageInfo opts in
       Generate_bom
         {| Options.OS := Options.OS opts;
            Options.ImageInfo :=
              {| ImageInfo.Arch := ImageInfo.Arch ii;
                 ImageInfo.Repository := ImageInfo.Repository ii;
                 ImageInfo.Name := ImageInfo.Name ii;
                 ImageInfo.LayerDigest := ImageInfo.LayerDigest ii;
                 ImageInfo.ImageDigest := ImageInfo.ImageDigest ii;
                 ImageInfo.IndexDigest := digest;
                 ImageInfo.IndexMediaType := mediaType;
                 ImageInfo.Images := images |};
            Options.Packages := Options.Packages opts |}
       = Generate_bom opts).
Proof. split; intros; reflexivity. Qed.

(** *** Writing the document *)

Lemma renderDoc_outcome (doc : Document) (path : string) (w : World) :
  match os_Create path w with
  | (Err err, w1) =>
      renderDoc doc path w
      = (Err (Wrap ("opening SBOM path " +:+ path +:+ " for writing") err), w1)
  | (Ok out, w1) =>
      match Encoder_Encode out "" "  " doc w1 with
      | (Err err, w2) =>
          renderDoc doc path w
          = (Err (Wrap "encoding spdx sbom" err), File_Close out w2)
      | (Ok _, w2) => renderDoc doc path w = (Ok (), File_Close out w2)
      end
  end.
Proof.
  unfold renderDoc. destruct (os_Create path w) as [[out|err] w1]; [|done].
  by destruct (Encoder_Encode out "" "  " doc w1) as [[[]|err] w2].
Qed.

(** X15: a file that [Generate] or [GenerateIndex] has created is closed after
    the encoder has run, whether the encoder failed or not, and nothing is
    done to the file system after that; when the file cannot be created, the
    encoder does not run and the file system is as [os.Create] left it. *)
Theorem created_file_is_closed (opts : Options.t) (path : string) (w : World) :
  match os_Create path w with
  | (Ok out, w1) =>
      (Generate opts path w).2
      = File_Close out (Encoder_Encode out "" "  " (Generate_bom opts) w1).2
      ∧ ∀ doc, GenerateIndex_bom opts = Ok doc →
          (GenerateIndex opts path w).2
          = File_Close out (Encoder_Encode out "" "  " doc w1).2
  | (Err err, w1) =>
      (Generate opts path w).2 = w1
      ∧ ∀ doc, GenerateIndex_bom opts = Ok doc →
          (GenerateIndex opts path w).2 = w1
  end.
Proof.
  unfold Generate, GenerateIndex.
  pose proof (renderDoc_outcome (Generate_bom opts) path w) as Hgen.
  destruct (os_Create path w) as [[out|err] w1] eqn:Hcreate.
  - split.
    + destruct (Encoder_Encode out "" "  " (Generate_bom opts) w1)
        as [[[]|err] w2]; by rewrite Hgen.
    + intros doc ->.
      pose proof (renderDoc_outcome doc path w) as Hidx. rewrite Hcreate in Hidx.
      destruct (Encoder_Encode out "" "  " doc w1) as [[[]|err] w2];
        by rewrite Hidx.
  - split; [by rewrite Hgen|]. intros doc ->.
    pose proof (renderDoc_outcome doc path w) as Hidx. rewrite Hcreate in Hidx.
    by rewrite Hidx.
Qed.

(** X16: an error of [Generate] wraps, twice, an error of [os.Create] or of the
    encoder; an error of [GenerateIndex] wraps one of these or, once, an
    error of the reference parser. *)
Theorem error_root_cause (opts : Options.t) (path : string) (w : World)
    (err : error) :
  ((Generate opts path w).1 = Err err →
   ∃ cause context,
     err = Wrap "rendering sbom to disk" (Wrap context cause)
     ∧ ((os_Create path w).1 = Err cause
        ∨ ∃ out w1, os_Create path w = (Ok out, w1)
                    ∧ (Encoder_Encode out "" "  " (Generate_bom opts) w1).1
                      = Err cause))
  ∧ ((GenerateIndex opts path w).1 = Err err →
     (∃ cause,
        err = Wrap "parsing image reference" cause
        ∧ ParseReference (ImageInfo.Name (Options.ImageInfo opts)) = Err cause)
     ∨ ∃ doc cause context,
         GenerateIndex_bom opts = Ok doc
         ∧ err = Wrap "rendering SBOM" (Wrap context cause)
         ∧ ((os_Create path w).1 = Err cause
            ∨ ∃ out w1, os_Create path w = (Ok out, w1)
                        ∧ (Encoder_Encode out "" "  " doc w1).1 = Err cause)).
Proof.
  assert (∀ doc e,
    (renderDoc doc path w).1 = Err e →
    ∃ cause context,
      e = Wrap context cause
      ∧ ((os_Create path w).1 = Err cause
         ∨ ∃ out w1, os_Create path w = (Ok out, w1)
                     ∧ (Encoder_Encode out "" "  " doc w1).1 = Err cause))
    as Hrender.
  { intros doc e. pose proof (renderDoc_outcome doc path w) as Hout.
    destruct (os_Create path w) as [[out|cause] w1].
    - destruct (Encoder_Encode out "" "  " doc w1) as [[[]|cause] w2] eqn:Henc;
        rewrite Hout; [done|].
      intros [= <-]. do 2 eexists. split; [done|]. right.
      exists out, w1. by rewrite Henc.
    - rewrite Hout. intros [= <-]. do 2 eexists. split; [done|]. by left. }
  split.
  - unfold Generate.
    destruct (renderDoc (Generate_bom opts) path w) as [[[]|e] w'] eqn:Hdoc;
      [done|].
    intros [= <-].
    destruct (Hrender (Generate_bom opts) e) as (cause & context & -> & Hcause);
      [by rewrite Hdoc|].
    by exists cause, context.
  - unfold GenerateIndex.
    destruct (GenerateIndex_bom opts) as [doc|e] eqn:Hbom.
    + destruct (renderDoc doc path w) as [[[]|e] w'] eqn:Hdoc; [done|].
      intros [= <-]. right.
      destruct (Hrender doc e) as (cause & context & -> & Hcause);
        [by rewrite Hdoc|].
      by exists doc, cause, context.
    + intros [= <-]. left.
      unfold GenerateIndex_bom, GenerateIndex_names in Hbom. cbv zeta in Hbom.
      destruct (decide _); [|done].
      destruct (ParseReference _) as [ref|cause]; [done|].
      injection Hbom as <-. by exists cause.
Qed.

(** *** References of the dependency list *)

(** X17: every entry of the dependency list of a document of [Generate] refers,
    by its [Ref], to a component of the document: the component, under the
    layer, of the package the entry was made for. *)
Theorem dependency_refs_present (opts : Options.t) :
  Forall (λ d, Ref d ∈ BOMRef <$> document_components (Generate_bom opts))
         (Dependencies (Generate_bom opts))
  ∧ Forall2 (λ d c, Ref d = BOMRef c ∧ Components c = [])
            (Dependencies (Generate_bom opts))
            (Generate_pkgComponent opts <$> Options.Packages opts).
Proof.
  rewrite Generate_document_components. cbv zeta.
  rewrite Generate_bom_unfold. cbv zeta. cbn [Dependencies].
  split.
  - apply Forall_fmap, Forall_forall. intros pkg Hpkg. unfold compose.
    rewrite fmap_app, elem_of_app. right. cbn [fmap list_fmap].
    apply elem_of_cons. right.
    rewrite <- list_fmap_compose. apply list_elem_of_fmap. by exists pkg.
  - apply Forall2_fmap, Forall_Forall2_diag, Forall_true. by intros pkg.
Qed.

End Further.

(** *** The JSON value *)

(** Induction on a component with the hypothesis for each of its
    children. *)
Section Component_induction.
Variable P : Component → Prop.
Hypothesis node :
  ∀ bomRef type name version description pUrl hashes externalReferences
    licenses components,
    Forall P components →
    P (mkComponent bomRef type name version description pUrl hashes
         externalReferences licenses components).


End Component_induction.

Lemma marshal_Component_unfold (c : Component) :
  marshal_Component c
  = JObject
      ([("bom-ref", JString (BOMRef c));
        ("type", JString (Type_ c));
        ("name", JString (Name c));
        ("version", JString (Version c));
        ("description", JString (Description c));
        ("purl", JString (PUrl c))]
       ++ omitempty "hashes" (marshal_Hash <$> Hashes c)
       ++ omitempty "externalReferences"
            (marshal_ExternalReference <$> ExternalReferences c)
       ++ omitempty "licenses" (marshal_License <$> Licenses c)
       ++ omitempty "components" (marshal_Component <$> Components c)).
Proof. by destruct c. Qed.












Section Members.
Context `{AD : ArchDecl, ND : NameDecl, MO : MapOrder}.

(** X19: the members of the objects of a written document.  A document of
    [GenerateIndex] has no [dependencies] member, and one of [Generate] has
    it only with packages; a package has the six text members and
    [licenses]; a child of the index has the six and [hashes], its empty
    slices leaving nothing; the image component has the six, with its empty
    name and version among them, and [components]. *)
Theorem json_members (opts : Options.t) :
  json_keys (marshal_Document (Generate_bom opts))
  = ["bomFormat"; "specVersion"; "version"; "components"]
    ++ match Options.Packages opts with [] => [] | _ => ["dependencies"] end
  ∧ (∀ doc, GenerateIndex_bom opts = Ok doc →
       json_keys (marshal_Document doc)
       = ["bomFormat"; "specVersion"; "version"; "components"])
  ∧ (∀ pkg,
       json_keys (marshal_Component (Generate_pkgComponent opts pkg))
       = ["bom-ref"; "type"; "name"; "version"; "description"; "purl";
          "licenses"])
  ∧ (∀ info,
       json_keys (marshal_Component (archImageComponent opts info))
       = ["bom-ref"; "type"; "name"; "version"; "description"; "purl";
          "hashes"])
  ∧ (∀ layer,
       marshal_Component (Generate_imageComponent opts layer)
       = JObject
           [("bom-ref", JString (BOMRef (Generate_imageComponent opts layer)));
            ("type", JString "container");
            ("name", JString "");
            ("version", JString "");
            ("description", JString "apko container image");
            ("purl", JString (BOMRef (Generate_imageComponent opts layer)));
            ("components", JArray [marshal_Component layer])]).
Proof.
  split; [|split; [|split; [|split]]].
  - rewrite Generate_bom_unfold. cbv zeta. unfold marshal_Document.
    cbn [json_keys BOMFormat SpecVersion DocVersion DocComponents Dependencies].
    destruct (decide _), (Options.Packages opts); reflexivity.
  - intros doc. unfold GenerateIndex_bom.
    destruct (GenerateIndex_names opts) as [[repoName name]|]; [|done].
    by intros [= <-].
  - intros pkg. by rewrite marshal_Component_unfold.
  - intros info. by rewrite marshal_Component_unfold.
  - intros layer. by rewrite marshal_Component_unfold.
Qed.

End Members.

(** ** Further evaluations *)
Section Further_evaluations.
Import Sample.
#[local] Existing Instances arch refs stored_order files.

(** busybox asks for musl, and musl is in the document, yet the edge does
    not point at the component of musl, which carries a version. *)
Example edge_misses_component :
  "pkg:apk/alpine/musl?arch=amd64"
    ∈ DependsOn (Generate_pkgDependency (options "" "") busybox)
  ∧ BOMRef (Generate_pkgComponent (options "" "") musl)
    = "pkg:apk/alpine/musl@1.2.3-r0?arch=amd64".
Proof. split; [|vm_compute; reflexivity]. vm_compute. do 1 constructor. Qed.

(** [GenerateIndex] builds a document for the options of the examples. *)
Lemma GenerateIndex_component_kinds_witness :
  ∃ doc,
    GenerateIndex_bom (options "" "") = Ok doc
    ∧ Forall (λ c, Type_ c = "container") (document_components doc)
    ∧ length (document_components doc) = 3%nat.
Proof.
  destruct (GenerateIndex_bom (options "" "")) as [doc|err] eqn:Hbom;
    [|discriminate Hbom].
  exists doc. split; [reflexivity|].
  destruct (GenerateIndex_component_kinds (options "" "") doc Hbom) as [Hall _].
  split.
  - eapply Forall_impl; [exact Hall|]. by intros c [? _].
  - injection Hbom as <-. reflexivity.
Defined.

(** The document of the examples with the image digest [sha256:2222] has
    pairwise distinct identifiers. *)
Lemma identifiers_unique_only_if_witness :
  unique_identifiers (Generate_bom (options "" "sha256:2222"))
  ∧ distinct_packages (options "" "sha256:2222").
Proof.
  assert (unique_identifiers (Generate_bom (options "" "sha256:2222")))
    as Hunique.
  { unfold unique_identifiers. refine (bool_decide_unpack _ _).
    vm_compute. exact I. }
  split; [exact Hunique|].
  exact (proj1 (identifiers_unique_only_if (options "" "sha256:2222") Hunique)).
Defined.

(** The options of the examples without an image name have two images with
    distinct digests. *)
Lemma index_identifiers_unique_witness :
  ImageInfo.Name (Options.ImageInfo (options "" "")) = ""
  ∧ NoDup ((λ info, v1.String (ArchImageInfo.Digest info))
             <$> ImageInfo.Images (Options.ImageInfo (options "" "")))
  ∧ ∃ doc, GenerateIndex_bom (options "" "") = Ok doc ∧ unique_identifiers doc.
Proof.
  assert (NoDup ((λ info, v1.String (ArchImageInfo.Digest info))
                   <$> ImageInfo.Images (Options.ImageInfo (options "" ""))))
    as Hdigests.
  { refine (bool_decide_unpack _ _). vm_compute. exact I. }
  split; [reflexivity|]. split; [exact Hdigests|].
  exact (index_identifiers_unique (options "" "") eq_refl Hdigests).
Defined.


End Further_evaluations.
